(** * Verification of the loan-tracking dashboard (src/app.py)

    Shallow embedding of the data-handling parts of [app.py]:
    Python [datetime.date] values (as proleptic Gregorian ordinals, the
    representation [date.toordinal] uses), the cell values a pandas
    DataFrame holds, the date and boolean parsers, the schema reconciler
    [_get_or_create_worksheet], the player-table operations
    [upsert_jugador], [baja_jugador_soft], [eliminar_jugador_hard], the
    duplicate-week check of the weekly form and the cumulative table. *)

From Stdlib Require Import ZArith List String Ascii Bool Lia.
From Stdlib Require Import Sorted Permutation.
Import ListNotations.
Open Scope Z_scope.

(* ------------------------------------------------------------------ *)
(** ** Python [datetime.date] *)

Module Dates.

(** [date.max.toordinal()], i.e. 9999-12-31. *)
Definition MAXORDINAL : Z := 3652059.

(** A date is its ordinal: 0001-01-01 is 1. *)
Definition date := Z.

Definition valid_date (d : date) : Prop := 1 <= d <= MAXORDINAL.

Definition is_leap (year : Z) : bool :=
  Z.eqb (year mod 4) 0 && (negb (Z.eqb (year mod 100) 0) || Z.eqb (year mod 400) 0).

Definition DAYS_IN_MONTH : list Z :=
  [-1; 31; 28; 31; 30; 31; 30; 31; 31; 30; 31; 30; 31].

Definition DAYS_BEFORE_MONTH : list Z :=
  [-1; 0; 31; 59; 90; 120; 151; 181; 212; 243; 273; 304; 334].

Definition days_in_month (year month : Z) : Z :=
  if Z.eqb month 2 && is_leap year then 29
  else nth (Z.to_nat month) DAYS_IN_MONTH 0.

Definition days_before_year (year : Z) : Z :=
  let y := year - 1 in y * 365 + y / 4 - y / 100 + y / 400.

Definition days_before_month (year month : Z) : Z :=
  nth (Z.to_nat month) DAYS_BEFORE_MONTH 0
  + (if (2 <? month) && is_leap year then 1 else 0).

(** [_ymd2ord], defined on checked fields. *)
Definition ymd2ord (year month day : Z) : Z :=
  days_before_year year + days_before_month year month + day.

(** [date(year, month, day)]: [None] is the [ValueError] of
    [_check_date_fields]. *)
Definition mk_date (year month day : Z) : option date :=
  if (1 <=? year) && (year <=? 9999) && (1 <=? month) && (month <=? 12)
     && (1 <=? day) && (day <=? days_in_month year month)
  then Some (ymd2ord year month day) else None.

Definition DI400Y : Z := 146097.
Definition DI100Y : Z := 36524.
Definition DI4Y : Z := 1461.

(** [_ord2ymd]. *)
Definition ord2ymd (n0 : Z) : Z * Z * Z :=
  let n := n0 - 1 in
  let n400 := n / DI400Y in let n := n mod DI400Y in
  let n100 := n / DI100Y in let n := n mod DI100Y in
  let n4 := n / DI4Y in let n := n mod DI4Y in
  let n1 := n / 365 in let n := n mod 365 in
  let year := n400 * 400 + 1 + n100 * 100 + n4 * 4 + n1 in
  if Z.eqb n1 4 || Z.eqb n100 4 then (year - 1, 12, 31)
  else
    let leapyear := Z.eqb n1 3 && (negb (Z.eqb n4 24) || Z.eqb n100 3) in
    let month := Z.shiftr (n + 50) 5 in
    let preceding := nth (Z.to_nat month) DAYS_BEFORE_MONTH 0
                     + (if (2 <? month) && leapyear then 1 else 0) in
    if n <? preceding then
      let month := month - 1 in
      let preceding := preceding - (nth (Z.to_nat month) DAYS_IN_MONTH 0
                         + (if Z.eqb month 2 && leapyear then 1 else 0)) in
      (year, month, n - preceding + 1)
    else (year, month, n - preceding + 1).

(** [date.weekday()]: Monday is 0, Sunday is 6. *)
Definition weekday (d : date) : Z := (d + 6) mod 7.

(** [d + timedelta(days=k)]: [None] is the [OverflowError]
    "date value out of range". *)
Definition date_add (d : date) (k : Z) : option date :=
  let o := d + k in
  if (0 <? o) && (o <=? MAXORDINAL) then Some o else None.

(** [get_week_start(d)] for a given date [d]. *)
Definition get_week_start (d : date) : option date :=
  date_add d (- weekday d).

(** [get_week_end_from_start(week_start)]. *)
Definition get_week_end_from_start (week_start : date) : option date :=
  date_add week_start 6.

(** The Sunday ending the week of [d], as the code obtains it:
    [get_week_end_from_start(get_week_start(d))]. *)
Definition week_end_of (d : date) : option date :=
  match get_week_start d with
  | Some ws => get_week_end_from_start ws
  | None => None
  end.

End Dates.

(* ------------------------------------------------------------------ *)
(** ** Python values held in DataFrame cells, and [str()] *)

Module Py.
Import Dates.

(** The cell values the program handles.  [PNaT] is [pd.NaT] (an
    instance of [datetime], whose [.date()] is [NaT] again); [PNaN] is
    the float NaN pandas puts in cells it creates without a value.
    [PDatetime d secs] is a datetime on date [d], [secs] seconds after
    midnight. *)
Inductive pyval : Type :=
| PStr (s : string)
| PInt (z : Z)
| PBool (b : bool)
| PDate (d : date)
| PDatetime (d : date) (secs : Z)
| PNone
| PNaT
| PNaN.

Definition pyval_eqb (a b : pyval) : bool :=
  match a, b with
  | PStr x, PStr y => String.eqb x y
  | PInt x, PInt y => Z.eqb x y
  | PBool x, PBool y => Bool.eqb x y
  | PDate x, PDate y => Z.eqb x y
  | PDatetime x s, PDatetime y t => Z.eqb x y && Z.eqb s t
  | PNone, PNone | PNaT, PNaT | PNaN, PNaN => true
  | _, _ => false
  end.

Definition digit_char (k : Z) : ascii := ascii_of_nat (48 + Z.to_nat k).

Fixpoint dec_aux (fuel : nat) (n : Z) (acc : string) : string :=
  match fuel with
  | O => acc
  | S f =>
      let acc' := String (digit_char (n mod 10)) acc in
      if n <? 10 then acc' else dec_aux f (n / 10) acc'
  end.

(** [str(n)] for a non-negative [int]. *)
Definition dec_nonneg (n : Z) : string := dec_aux (S (Z.to_nat (Z.log2 n))) n "".

(** [str(n)] for an [int]. *)
Definition dec (n : Z) : string :=
  if n <? 0 then String "-" (dec_nonneg (- n)) else dec_nonneg n.

(** ["%0<w>d"]. *)
Definition zpad (w : nat) (n : Z) : string :=
  let s := dec n in
  (String.concat "" (repeat "0" (w - String.length s)) ++ s)%string.

(** [date.isoformat()], which is [str(date)]. *)
Definition isoformat (d : date) : string :=
  let '(y, m, dd) := ord2ymd d in
  (zpad 4 y ++ "-" ++ zpad 2 m ++ "-" ++ zpad 2 dd)%string.

Definition py_str (x : pyval) : string :=
  match x with
  | PStr s => s
  | PInt z => dec z
  | PBool true => "True"
  | PBool false => "False"
  | PDate d => isoformat d
  | PDatetime d secs =>
      (isoformat d ++ " " ++ zpad 2 (secs / 3600) ++ ":"
        ++ zpad 2 ((secs / 60) mod 60) ++ ":" ++ zpad 2 (secs mod 60))%string
  | PNone => "None"
  | PNaT => "NaT"
  | PNaN => "nan"
  end.

(** [isinstance(x, date)] and [isinstance(x, datetime)]. *)
Definition is_date (x : pyval) : bool :=
  match x with PDate _ | PDatetime _ _ | PNaT => true | _ => false end.
Definition is_datetime (x : pyval) : bool :=
  match x with PDatetime _ _ | PNaT => true | _ => false end.

(** [str.isspace()] on the ASCII range. *)
Definition is_space (c : ascii) : bool :=
  let n := nat_of_ascii c in
  ((9 <=? n) && (n <=? 13))%nat || ((28 <=? n) && (n <=? 32))%nat.

Fixpoint lstrip_l (l : list ascii) : list ascii :=
  match l with
  | c :: r => if is_space c then lstrip_l r else l
  | [] => []
  end.

(** [str.strip()]. *)
Definition strip (s : string) : string :=
  string_of_list_ascii
    (rev (lstrip_l (rev (lstrip_l (list_ascii_of_string s))))).

Definition lower_char (c : ascii) : ascii :=
  let n := nat_of_ascii c in
  if ((65 <=? n) && (n <=? 90))%nat then ascii_of_nat (n + 32) else c.

(** [str.lower()] on the ASCII range. *)
Definition lower (s : string) : string :=
  string_of_list_ascii (map lower_char (list_ascii_of_string s)).

Definition str_in (s : string) (l : list string) : bool :=
  existsb (String.eqb s) l.

End Py.

(* ------------------------------------------------------------------ *)
(** ** [datetime.strptime] for the directives the program uses *)

Module Strptime.
Import Dates Py.

Inductive fmt_tok : Type :=
| Dir (c : ascii)
| Lit (c : ascii).

(** The format string, as [_TimeRE.pattern] reads it. *)
Fixpoint compile_fmt (l : list ascii) : list fmt_tok :=
  match l with
  | "%"%char :: c :: r => Dir c :: compile_fmt r
  | c :: r => Lit c :: compile_fmt r
  | [] => []
  end.

Definition in_range (lo hi : ascii) (c : ascii) : bool :=
  ((nat_of_ascii lo <=? nat_of_ascii c) && (nat_of_ascii c <=? nat_of_ascii hi))%nat.
Definition is_char (a : ascii) (c : ascii) : bool := Ascii.eqb a c.
Definition is_digit : ascii -> bool := in_range "0" "9".

(** The alternatives of [_TimeRE]'s regexes, in the order the regex
    engine tries them:
    ['Y': \d\d\d\d], ['m': 1[0-2]|0[1-9]|[1-9]],
    ['d': 3[01]|[12]\d|0[1-9]|[1-9]| [1-9]]. *)
Definition directive_alts (k : ascii) : list (list (ascii -> bool)) :=
  if Ascii.eqb k "Y" then [[is_digit; is_digit; is_digit; is_digit]]
  else if Ascii.eqb k "m" then
    [[is_char "1"; in_range "0" "2"]; [is_char "0"; in_range "1" "9"];
     [in_range "1" "9"]]
  else if Ascii.eqb k "d" then
    [[is_char "3"; in_range "0" "1"]; [in_range "1" "2"; is_digit];
     [is_char "0"; in_range "1" "9"]; [in_range "1" "9"];
     [is_char " "; in_range "1" "9"]]
  else [].

Fixpoint match_cls (p : list (ascii -> bool)) (s : list ascii)
  : option (list ascii * list ascii) :=
  match p, s with
  | [], _ => Some ([], s)
  | k :: p', c :: s' =>
      if k c then
        match match_cls p' s' with
        | Some (g, r) => Some (c :: g, r)
        | None => None
        end
      else None
  | _ :: _, [] => None
  end.

(** All the ways the compiled regex matches a prefix of the input, in
    backtracking order (the regex is compiled with [IGNORECASE]). *)
Fixpoint match_fmt (toks : list fmt_tok) (s : list ascii)
  : list (list (ascii * list ascii) * list ascii) :=
  match toks with
  | [] => [([], s)]
  | Lit c :: ts =>
      match s with
      | c' :: s' =>
          if Ascii.eqb (lower_char c) (lower_char c') then match_fmt ts s' else []
      | [] => []
      end
  | Dir k :: ts =>
      flat_map
        (fun p =>
           match match_cls p s with
           | Some (g, r) => map (fun br => ((k, g) :: fst br, snd br)) (match_fmt ts r)
           | None => []
           end)
        (directive_alts k)
  end.

Definition digit_val (c : ascii) : Z := Z.of_nat (nat_of_ascii c) - 48.

(** [int(group)]: the only non-digit a group can hold is the leading
    space of ['d'], which [int] skips. *)
Definition int_of_group (g : list ascii) : Z :=
  fold_left (fun acc c => if is_digit c then acc * 10 + digit_val c else acc) g 0.

Fixpoint group (k : ascii) (b : list (ascii * list ascii)) : option Z :=
  match b with
  | (k', g) :: r => if Ascii.eqb k k' then Some (int_of_group g) else group k r
  | [] => None
  end.

Definition default_or (o : option Z) (dflt : Z) : Z :=
  match o with Some z => z | None => dflt end.

(** [datetime.strptime(s, fmt).date()]; [None] is a [ValueError]:
    no match, ["unconverted data remains"], or an invalid date. *)
Definition strptime_date (s fmt : string) : option date :=
  match match_fmt (compile_fmt (list_ascii_of_string fmt)) (list_ascii_of_string s) with
  | (b, rest) :: _ =>
      match rest with
      | [] => mk_date (default_or (group "Y" b) 1900) (default_or (group "m" b) 1)
                      (default_or (group "d" b) 1)
      | _ :: _ => None
      end
  | [] => None
  end.

End Strptime.

(* ------------------------------------------------------------------ *)
(** ** Cell normalisation: [_parse_date_safe], [_parse_dt_safe],
       [_coerce_bool_series], numeric columns *)

Module Normalize.
Import Dates Py Strptime.
Local Open Scope string_scope.

(** The pandas conversions the parsers fall back to, taken as given:
    [pd.to_datetime(s, errors="coerce")] on a string ([None] is [NaT]),
    and [pd.to_numeric(s, errors="coerce")] followed by [astype(int)]
    ([None] is NaN). *)
Record pandas_lib : Type := {
  to_datetime : string -> option (date * Z);
  to_numeric : string -> option Z
}.

Definition FORMATS : list string := ["%Y-%m-%d"; "%d/%m/%Y"; "%d-%m-%Y"].

Fixpoint try_formats (s : string) (fmts : list string) : option date :=
  match fmts with
  | [] => None
  | f :: r =>
      match strptime_date s f with
      | Some d => Some d
      | None => try_formats s r
      end
  end.

(** [x.date()] on a datetime. *)
Definition date_part (x : pyval) : pyval :=
  match x with
  | PDatetime d _ => PDate d
  | _ => x
  end.

Definition _parse_date_safe (lib : pandas_lib) (x : pyval) : pyval :=
  match x with
  | PNone => PNaT
  | _ =>
      if is_date x && negb (is_datetime x) then x
      else if is_datetime x then date_part x
      else
        let s := strip (py_str x) in
        if String.eqb s "" || str_in (lower s) ["nat"; "none"] then PNaT
        else
          match try_formats s FORMATS with
          | Some d => PDate d
          | None =>
              match to_datetime lib s with
              | Some (d, _) => PDate d
              | None => PNaT
              end
          end
  end.

Definition _parse_dt_safe (lib : pandas_lib) (x : pyval) : pyval :=
  match x with
  | PNone => PNaT
  | _ =>
      if is_datetime x then x
      else
        let s := strip (py_str x) in
        if String.eqb s "" || str_in (lower s) ["nat"; "none"] then PNaT
        else
          match to_datetime lib s with
          | Some (d, t) => PDatetime d t
          | None => PNaT
          end
  end.

Definition BOOL_MAP : list (string * bool) :=
  [("true", true); ("false", false); ("1", true); ("0", false);
   ("si", true); ("sí", true); ("no", false)].

Fixpoint assoc_str {A} (k : string) (l : list (string * A)) : option A :=
  match l with
  | (k', v) :: r => if String.eqb k k' then Some v else assoc_str k r
  | [] => None
  end.

(** One cell of [_coerce_bool_series]: [astype(str).str.strip().str.lower()],
    [.map(...)], [.fillna(False)]. *)
Definition coerce_bool (x : pyval) : pyval :=
  PBool (match assoc_str (lower (strip (py_str x))) BOOL_MAP with
         | Some b => b
         | None => false
         end).

(** One cell of [pd.to_numeric(..., errors="coerce").fillna(0).astype(int)]. *)
Definition coerce_int (lib : pandas_lib) (x : pyval) : pyval :=
  PInt (match x with
        | PInt z => z
        | PBool b => if b then 1 else 0
        | PStr s => match to_numeric lib s with Some z => z | None => 0 end
        | _ => 0
        end).

End Normalize.

(* ------------------------------------------------------------------ *)
(** ** DataFrames and the player-table operations *)

Module Frame.
Import Dates Py Normalize.
Local Open Scope string_scope.

(** A DataFrame: its column labels and its rows, each row holding one
    cell per column, in column order. *)
Record frame : Type := {
  columns : list string;
  rows : list (list pyval)
}.

Fixpoint index_of (c : string) (l : list string) : option nat :=
  match l with
  | [] => None
  | c' :: r =>
      if String.eqb c c' then Some O
      else match index_of c r with Some i => Some (S i) | None => None end
  end.

Definition has_col (c : string) (cols : list string) : bool :=
  match index_of c cols with Some _ => true | None => false end.

Fixpoint list_set {A} (i : nat) (v : A) (l : list A) : list A :=
  match l, i with
  | [], _ => []
  | _ :: r, O => v :: r
  | x :: r, S j => x :: list_set j v r
  end.

Fixpoint zip_with {A B C} (f : A -> B -> C) (l1 : list A) (l2 : list B) : list C :=
  match l1, l2 with
  | x :: r1, y :: r2 => f x y :: zip_with f r1 r2
  | _, _ => []
  end.

(** The cell of row [r] under label [c]; a missing cell reads as NaN. *)
Definition get (cols : list string) (r : list pyval) (c : string) : pyval :=
  match index_of c cols with
  | Some i => nth i r PNaN
  | None => PNaN
  end.

(** [df[c]]; [None] is the [KeyError] of a missing column. *)
Definition column (df : frame) (c : string) : option (list pyval) :=
  match index_of c (columns df) with
  | Some i => Some (map (fun r => nth i r PNaN) (rows df))
  | None => None
  end.

(** [df["jugador_id"].astype(str) == str(key)]. *)
Definition id_mask (df : frame) (key : string) : option (list bool) :=
  match column df "jugador_id" with
  | Some vs => Some (map (fun v => String.eqb (py_str v) key) vs)
  | None => None
  end.

(** [df.loc[mask, k] = v]: sets the selected cells; an unknown label
    becomes a new last column, NaN outside the mask. *)
Definition loc_set (df : frame) (mask : list bool) (k : string) (v : pyval) : frame :=
  match index_of k (columns df) with
  | Some i =>
      {| columns := columns df;
         rows := zip_with (fun (m : bool) (r : list pyval) => if m then list_set i v r else r) mask (rows df) |}
  | None =>
      {| columns := app (columns df) [k];
         rows := zip_with (fun (m : bool) (r : list pyval) => app r [if m then v else PNaN])
                   mask (rows df) |}
  end.

(** [df[c] = v] for a label [c] not yet present. *)
Definition add_const_col (df : frame) (c : string) (v : pyval) : frame :=
  {| columns := app (columns df) [c]; rows := map (fun r => app r [v]) (rows df) |}.

(** A Python dict with string keys, in insertion order. *)
Definition dict := list (string * pyval).

(** [d[k] = v]. *)
Fixpoint dict_set (d : dict) (k : string) (v : pyval) : dict :=
  match d with
  | [] => [(k, v)]
  | (k', v') :: r => if String.eqb k k' then (k', v) :: r else (k', v') :: dict_set r k v
  end.

(** [d.update(p)]. *)
Definition dict_update (d p : dict) : dict :=
  fold_left (fun acc kv => dict_set acc (fst kv) (snd kv)) p d.

Definition dict_get (d : dict) (k : string) : pyval :=
  match assoc_str k d with Some v => v | None => PNaN end.

(** [pd.concat([df, pd.DataFrame([row])], ignore_index=True)]: the
    columns are those of [df] followed by the row's new keys; the cells
    nobody supplies are NaN. *)
Definition concat_row (df : frame) (row : dict) : frame :=
  let extra := filter (fun k => negb (has_col k (columns df))) (map fst row) in
  let cols := app (columns df) extra in
  {| columns := cols;
     rows := app (map (fun r => app r (map (fun _ => PNaN) extra)) (rows df))
                 [map (dict_get row) cols] |}.

(** Every row has one cell per column. *)
Definition well_formed (df : frame) : Prop :=
  Forall (fun r => List.length r = List.length (columns df)) (rows df).

(** [df[cols]] (every label present). *)
Definition select (df : frame) (cols : list string) : frame :=
  {| columns := cols;
     rows := map (fun r => map (get (columns df) r) cols) (rows df) |}.

Definition REQUIRED_JUGADORES_COLS : list string :=
  ["jugador_id"; "nombre"; "puesto"; "fecha_nacimiento"; "pais_prestamo";
   "division_prestamo"; "club_prestamo"; "opcion_compra"; "posibilidad_repesca";
   "fecha_retorno"; "fin_contrato_aaaj"; "estado"; "observaciones";
   "created_at"; "updated_at"].

(** [for c in cols: if c not in df.columns: df[c] = ""]. *)
Definition fill_missing (df : frame) (cols : list string) : frame :=
  fold_left (fun d c => if has_col c (columns d) then d else add_const_col d c (PStr ""))
            cols df.

(** [upsert_jugador(df_j, jugador_id, payload)], with [now] the value
    [hoy_str()] returns; [None] is a [KeyError] (no [jugador_id]
    column). *)
Definition upsert_jugador (df_j : frame) (jugador_id : string) (payload : dict)
  (now : string) : option frame :=
  match id_mask df_j jugador_id with
  | None => None
  | Some mask =>
      let df_new :=
        if existsb (fun b => b) mask then
          let d := fold_left (fun d kv => loc_set d mask (fst kv) (snd kv)) payload df_j in
          loc_set d mask "updated_at" (PStr now)
        else
          let row := map (fun c => (c, PStr "")) REQUIRED_JUGADORES_COLS in
          let row := dict_update row payload in
          let row := dict_set row "jugador_id" (PStr jugador_id) in
          let row := dict_set row "created_at" (PStr now) in
          let row := dict_set row "updated_at" (PStr now) in
          concat_row df_j row
      in
      Some (select (fill_missing df_new REQUIRED_JUGADORES_COLS) REQUIRED_JUGADORES_COLS)
  end.

(** [df.empty]: no rows or no columns. *)
Definition empty (df : frame) : bool :=
  match columns df, rows df with
  | [], _ | _, [] => true
  | _, _ => false
  end.

(** [if col in df.columns: df[col] = df[col].apply(f)]. *)
Definition apply_col (f : pyval -> pyval) (c : string) (df : frame) : frame :=
  match index_of c (columns df) with
  | Some i =>
      {| columns := columns df;
         rows := map (fun r => list_set i (f (nth i r PNaN)) r) (rows df) |}
  | None => df
  end.

Definition REQUIRED_SEGUIMIENTO_COLS : list string :=
  ["registro_id"; "jugador_id"; "week_start"; "week_end"; "partidos"; "minutos";
   "goles_marcados"; "goles_encajados"; "amarillas"; "rojas"; "incidencias";
   "created_at"; "updated_at"].

Definition REQUIRED_REPORTES_COLS : list string :=
  ["reporte_id"; "jugador_id"; "titulo"; "fecha_reporte"; "fecha_creacion";
   "contenido"; "created_at"; "updated_at"].

Definition normalizar_jugadores (lib : pandas_lib) (df_j : frame) : frame :=
  let df_j := if empty df_j then {| columns := REQUIRED_JUGADORES_COLS; rows := [] |}
              else df_j in
  let df_j := fold_left (fun d col => apply_col (_parse_date_safe lib) col d)
                ["fecha_nacimiento"; "fecha_retorno"; "fin_contrato_aaaj"] df_j in
  let df_j := apply_col coerce_bool "opcion_compra" df_j in
  apply_col coerce_bool "posibilidad_repesca" df_j.

Definition normalizar_seguimiento (lib : pandas_lib) (df_s : frame) : frame :=
  let df_s := if empty df_s then {| columns := REQUIRED_SEGUIMIENTO_COLS; rows := [] |}
              else df_s in
  let df_s := fold_left (fun d col => apply_col (_parse_date_safe lib) col d)
                ["week_start"; "week_end"] df_s in
  fold_left (fun d c => apply_col (coerce_int lib) c d)
    ["partidos"; "minutos"; "goles_marcados"; "goles_encajados"; "amarillas"; "rojas"]
    df_s.

Definition normalizar_reportes (lib : pandas_lib) (df_r : frame) : frame :=
  let df_r := if empty df_r then {| columns := REQUIRED_REPORTES_COLS; rows := [] |}
              else df_r in
  let df_r := apply_col (_parse_date_safe lib) "fecha_reporte" df_r in
  apply_col (_parse_dt_safe lib) "fecha_creacion" df_r.



(** [df[df["jugador_id"].astype(str) != str(jugador_id)]]. *)
Definition drop_player (df : frame) (jugador_id : string) : option frame :=
  match index_of "jugador_id" (columns df) with
  | Some i =>
      Some {| columns := columns df;
              rows := filter (fun r => negb (String.eqb (py_str (nth i r PNaN)) jugador_id))
                        (rows df) |}
  | None => None
  end.

(** [eliminar_jugador_hard(df_j, df_s, df_r, jugador_id)]. *)
Definition eliminar_jugador_hard (df_j df_s df_r : frame) (jugador_id : string)
  : option (frame * frame * frame) :=
  match drop_player df_j jugador_id, drop_player df_s jugador_id,
        drop_player df_r jugador_id with
  | Some j, Some s, Some r => Some (j, s, r)
  | _, _, _ => None
  end.

End Frame.

(* ------------------------------------------------------------------ *)
(** ** Schema reconciliation: [_get_or_create_worksheet] *)

Module Sheet.
Import Frame.
Local Open Scope string_scope.

(** The positions of label [c] in [header]: pandas selects every column
    carrying the label. *)
Fixpoint positions_from (n : nat) (c : string) (header : list string) : list nat :=
  match header with
  | [] => []
  | h :: r => if String.eqb c h then n :: positions_from (S n) c r
              else positions_from (S n) c r
  end.

(** The cells [df_old[c]] contributes to a row, after
    [if c not in df_old.columns: df_old[c] = ""]. *)
Definition cells_for (header : list string) (r : list string) (c : string) : list string :=
  match positions_from O c header with
  | [] => [""]
  | ps => map (fun i => nth i r "") ps
  end.

Fixpoint list_string_eqb (a b : list string) : bool :=
  match a, b with
  | [], [] => true
  | x :: a', y :: b' => String.eqb x y && list_string_eqb a' b'
  | _, _ => false
  end.

(** The worksheet's content after [_get_or_create_worksheet(sh, title, cols)].
    [ws] is [None] when [sh.worksheet(title)] fails, otherwise the grid
    [ws.get_all_values()] returns (rectangular, as gspread returns it).
    The result is the grid the worksheet holds afterwards. *)
Definition _get_or_create_worksheet (ws : option (list (list string))) (cols : list string)
  : list (list string) :=
  match ws with
  | None => [cols]
  | Some [] => [cols]
  | Some (header :: data) =>
      if list_string_eqb header cols then header :: data
      else
        let df_new := map (fun r => flat_map (cells_for header r) cols) data in
        (* [df_new.empty]: no rows, or no columns *)
        match df_new, cols with
        | [], _ | _, [] => [cols]
        | _, _ => cols :: df_new
        end
  end.

End Sheet.

(* ------------------------------------------------------------------ *)
(** ** The weekly form: duplicate-week check and append *)

Module Weekly.
Import Dates Py Normalize Frame.
Local Open Scope string_scope.

(** The values the form collects. *)
Record week_form : Type := {
  f_partidos : Z; f_minutos : Z; f_goles_marcados : Z; f_goles_encajados : Z;
  f_amarillas : Z; f_rojas : Z; f_incidencias : string
}.

(** [exists] in the submit handler:
    [(df_s["jugador_id"].astype(str) == str(jugador_id)) &
     (df_s.get("week_start", pd.Series([None] * len(df_s))).apply(_parse_date_safe) == week_start)];
    [None] is a [KeyError]. *)
Definition week_exists (lib : pandas_lib) (df_s : frame) (jugador_id : string)
  (week_start : date) : option bool :=
  match column df_s "jugador_id" with
  | None => None
  | Some ids =>
      let wss := match column df_s "week_start" with
                 | Some w => w
                 | None => map (fun _ => PNone) ids
                 end in
      Some (existsb (fun b => b)
              (zip_with (fun i w => String.eqb (py_str i) jugador_id
                                    && pyval_eqb (_parse_date_safe lib w) (PDate week_start))
                        ids wss))
  end.

Inductive submit_result : Type :=
| Duplicate                 (* st.error("Ya existe un registro ...") *)
| Saved (df_s2 : frame).    (* save_seguimiento(df_s2) *)

(** The submit branch of [form_carga_semanal]: [registro_id] is the
    generated [uuid4], [now] is [hoy_str()]; [None] is an exception
    (a [KeyError], or the [OverflowError] of the week end). *)
Definition submit_week (lib : pandas_lib) (df_s : frame) (jugador_id : string)
  (week_start : date) (f : week_form) (registro_id now : string) : option submit_result :=
  match get_week_end_from_start week_start with
  | None => None
  | Some week_end =>
      match week_exists lib df_s jugador_id week_start with
      | None => None
      | Some true => Some Duplicate
      | Some false =>
          let new_row : dict :=
            [("registro_id", PStr registro_id); ("jugador_id", PStr jugador_id);
             ("week_start", PDate week_start); ("week_end", PDate week_end);
             ("partidos", PInt (f_partidos f)); ("minutos", PInt (f_minutos f));
             ("goles_marcados", PInt (f_goles_marcados f));
             ("goles_encajados", PInt (f_goles_encajados f));
             ("amarillas", PInt (f_amarillas f)); ("rojas", PInt (f_rojas f));
             ("incidencias", PStr (strip (f_incidencias f)));
             ("created_at", PStr now); ("updated_at", PStr now)] in
          Some (Saved (concat_row df_s new_row))
      end
  end.

(** Whether a row holds the entry of player [p] for week-start [w], by
    the comparison the duplicate check makes. *)
Definition row_is (lib : pandas_lib) (cols : list string) (r : list pyval)
  (p : string) (w : date) : bool :=
  String.eqb (py_str (get cols r "jugador_id")) p
  && pyval_eqb (_parse_date_safe lib (get cols r "week_start")) (PDate w).

Definition count_entries (lib : pandas_lib) (df : frame) (p : string) (w : date) : nat :=
  List.length (filter (fun r => row_is lib (columns df) r p w) (rows df)).

End Weekly.

(* ------------------------------------------------------------------ *)
(** ** The cumulative table ("Tabla Acumulada" page) *)

Module Acum.
Import Dates.
Local Open Scope string_scope.

(** A normalised [seguimiento] row ([normalizar_seguimiento]): integer
    counters, [week_end] a date or [NaT] ([None]). *)
Record entry : Type := {
  e_jugador_id : string;
  e_week_end : option date;
  e_partidos : Z; e_minutos : Z; e_goles_marcados : Z; e_goles_encajados : Z;
  e_amarillas : Z; e_rojas : Z
}.

(** The columns of a [jugadores] row the page filters on. *)
Record player : Type := {
  p_jugador_id : string;
  p_nombre : string;
  p_estado : string;
  p_puesto : string;
  p_pais_prestamo : string
}.

(** One row of [agg]. *)
Record agg : Type := {
  a_jugador_id : string;
  partidos_total : Z; minutos_total : Z; goles_total : Z; encajados_total : Z;
  amarillas_total : Z; rojas_total : Z;
  ultima_semana : option date
}.

Definition sum_by (f : entry -> Z) (g : list entry) : Z :=
  fold_right (fun e acc => f e + acc) 0 g.

(** [max] of two dates, [NaT] ([None]) skipped. *)
Definition max_date (a b : option date) : option date :=
  match a, b with
  | Some x, Some y => Some (Z.max x y)
  | Some x, None => Some x
  | None, y => y
  end.

Definition group_of (es : list entry) (k : string) : list entry :=
  filter (fun e => String.eqb (e_jugador_id e) k) es.

Definition is_nat (e : entry) : bool :=
  match e_week_end e with None => true | Some _ => false end.

(** [("week_end", "max")] on one group. A column holding both dates and
    [NaT] has object dtype, and pandas takes its per-group maximum with
    Python's comparisons after filling [NaT] with [-inf]: a group holding
    both a date and [NaT] compares a date with a float and raises
    [TypeError] ([None]); a group of [NaT] only gives [NaT] ([Some None]);
    a group of dates only gives the latest one. *)
Definition week_max (g : list entry) : option (option date) :=
  if existsb is_nat g && existsb (fun e => negb (is_nat e)) g then None
  else Some (fold_right (fun e acc => max_date (e_week_end e) acc) None g).

(** The aggregates of group [g] of key [k], given its [ultima_semana]. *)
Definition agg_fields (g : list entry) (k : string) (u : option date) : agg :=
  {| a_jugador_id := k;
     partidos_total := sum_by e_partidos g;
     minutos_total := sum_by e_minutos g;
     goles_total := sum_by e_goles_marcados g;
     encajados_total := sum_by e_goles_encajados g;
     amarillas_total := sum_by e_amarillas g;
     rojas_total := sum_by e_rojas g;
     ultima_semana := u |}.

(** The aggregation of one group; [None] when it raises. *)
Definition agg_group (es : list entry) (k : string) : option agg :=
  let g := group_of es k in
  option_map (agg_fields g k) (week_max g).

(** All the results, or [None] as soon as one of them raised. *)
Fixpoint all_some {A : Type} (l : list (option A)) : option (list A) :=
  match l with
  | [] => Some []
  | Some x :: r => option_map (cons x) (all_some r)
  | None :: _ => None
  end.

(** [df_s2.groupby("jugador_id", as_index=False).agg(...)]: one row per
    distinct key (pandas orders the keys; the left merge below keeps the
    players' order, so the order of these rows is not observable), or
    [None] when the aggregation raises. *)
Definition groupby_agg (es : list entry) : option (list agg) :=
  all_some (map (agg_group es) (nodup string_dec (map e_jugador_id es))).

(** [df_j2.merge(agg, on="jugador_id", how="left")]: [None] stands for
    the NaN aggregates of a player without entries. *)
Definition merge_left (players : list player) (aggs : list agg) : list (player * option agg) :=
  map (fun p => (p, find (fun a => String.eqb (a_jugador_id a) (p_jugador_id p)) aggs))
      players.

(** A row of [df_view]: [minutos_total] has been through
    [pd.to_numeric(...).fillna(0).astype(int)]; [partidos_total] is still
    NaN ([None]) for a player without entries. *)
Record view_row : Type := {
  v_player : player;
  v_agg : option agg;
  v_minutos_total : Z;
  v_partidos_total : option Z
}.

Definition minutos_or_zero (a : option agg) : Z :=
  match a with Some x => minutos_total x | None => 0 end.

Definition to_view (pa : player * option agg) : view_row :=
  {| v_player := fst pa; v_agg := snd pa;
     v_minutos_total := minutos_or_zero (snd pa);
     v_partidos_total := option_map partidos_total (snd pa) |}.

(** [df_view[df_view[col].isin(sel)]] when [sel] is not empty. *)
Definition isin_filter (sel : list string) (f : player -> string)
  (l : list (player * option agg)) : list (player * option agg) :=
  match sel with
  | [] => l
  | _ => filter (fun pa => existsb (String.eqb (f (fst pa))) sel) l
  end.

(** Descending order on [(minutos_total, partidos_total)], NaN last
    ([na_position="last"]). *)
Definition partidos_ge (a b : option Z) : bool :=
  match a, b with
  | Some x, Some y => Z.leb y x
  | Some _, None => true
  | None, None => true
  | None, Some _ => false
  end.

Definition view_ge (a b : view_row) : bool :=
  Z.ltb (v_minutos_total b) (v_minutos_total a)
  || (Z.eqb (v_minutos_total a) (v_minutos_total b)
      && partidos_ge (v_partidos_total a) (v_partidos_total b)).

Fixpoint insert_view (x : view_row) (l : list view_row) : list view_row :=
  match l with
  | [] => [x]
  | y :: r => if view_ge x y then x :: y :: r else y :: insert_view x r
  end.

(** [sort_values(["minutos_total", "partidos_total"], ascending=False)]. *)
Definition sort_values (l : list view_row) : list view_row :=
  fold_right insert_view [] l.

(** What the page ends with. *)
Inductive page_result : Type :=
  | Stopped                       (* [st.warning]; [st.stop()] *)
  | Raised                        (* the aggregation raised [TypeError] *)
  | Shown (rows : list view_row). (* the rows [st.dataframe] shows *)

(** The page, given the filter widgets' values. *)
Definition tabla_acumulada (es : list entry) (players : list player)
  (estados puestos paises : list string) (solo_con_min : bool) : page_result :=
  match es with
  | [] => Stopped
  | _ =>
      match groupby_agg es with
      | None => Raised
      | Some aggs =>
          let base := merge_left players aggs in
          let v := isin_filter estados p_estado base in
          let v := isin_filter puestos p_puesto v in
          let v := isin_filter paises p_pais_prestamo v in
          let v := if solo_con_min then filter (fun pa => Z.ltb 0 (minutos_or_zero (snd pa))) v
                   else v in
          Shown (sort_values (map to_view v))
      end
  end.

End Acum.

(* ------------------------------------------------------------------ *)
(** ** Predicates used in the statements *)

Module Spec.
Import Dates Py Normalize Frame Weekly.
Local Open Scope string_scope.

(** The value a dict payload gives label [c] when applied over [dflt]
    (the last binding of [c] wins, as with [for k, v in payload.items()]). *)
Definition payload_value (p : dict) (c : string) (dflt : pyval) : pyval :=
  fold_left (fun acc kv => if String.eqb c (fst kv) then snd kv else acc) p dflt.

(** The row [upsert_jugador] appends for a new identifier [i]. *)
Definition inserted_row (i : string) (p : dict) (now : string) (c : string) : pyval :=
  if String.eqb c "jugador_id" then PStr i
  else if String.eqb c "created_at" || String.eqb c "updated_at" then PStr now
  else payload_value p c (PStr "").

(** A row after a payload [p] is applied to it at time [now]. *)
Definition updated_row (old : string -> pyval) (p : dict) (now : string) (c : string)
  : pyval :=
  if String.eqb c "updated_at" then PStr now else payload_value p c (old c).

(** Row [r] of a table with columns [cols] belongs to player [y]. *)
Definition belongs (cols : list string) (r : list pyval) (y : string) : bool :=
  String.eqb (py_str (get cols r "jugador_id")) y.

(** [df'] is [df] without the rows of player [y], the other rows kept
    unchanged and in order. *)
Definition removes_player (df df' : frame) (y : string) : Prop :=
  columns df' = columns df
  /\ rows df' = filter (fun r => negb (belongs (columns df) r y)) (rows df)
  /\ (forall r, In r (rows df') <-> In r (rows df) /\ belongs (columns df) r y = false).


(** [row_is] on a row read as a function of labels. *)
Definition row_is_f (lib : pandas_lib) (f : string -> pyval) (p : string) (w : date) : bool :=
  String.eqb (py_str (f "jugador_id")) p
  && pyval_eqb (_parse_date_safe lib (f "week_start")) (PDate w).

(** The row [_get_or_create_worksheet] writes for data row [r] of a
    sheet whose header is [H], against the required labels [R]. *)
Definition reconciled_row (H R : list string) (r : list string) : list string :=
  map (fun c => match index_of c H with Some i => nth i r "" | None => "" end) R.

(** A chain of [apply_col] steps, applied in order. *)
Definition apply_all (L : list ((pyval -> pyval) * string)) (df : frame) : frame :=
  fold_left (fun d fc => apply_col (fst fc) (snd fc) d) L df.

End Spec.

(* ------------------------------------------------------------------ *)
(** ** Date spellings *)

Module DateForms.
Import Dates Py Strptime.
Local Open Scope string_scope.












End DateForms.

(* ------------------------------------------------------------------ *)
(** ** The accumulated table, in the words of the specification *)

Module AcumSpec.
Import Dates Acum.
Local Open Scope string_scope.

Definition zsum (l : list Z) : Z := fold_right Z.add 0 l.

(** The greatest of the dates present in [l], [None] when there is none. *)
Definition latest (l : list (option date)) : option date :=
  match flat_map (fun o => match o with Some x => [x] | None => [] end) l with
  | [] => None
  | x :: r => Some (fold_right Z.max x r)
  end.

(** The row shown for player [p]: the sums and the latest week end of the
    player's entries, or no aggregates (minutes shown as 0) without
    entries. *)
Definition player_row (es : list entry) (p : player) : view_row :=
  let k := p_jugador_id p in
  let g := filter (fun e => String.eqb (e_jugador_id e) k) es in
  match g with
  | [] => {| v_player := p; v_agg := None; v_minutos_total := 0;
             v_partidos_total := None |}
  | _ =>
      {| v_player := p;
         v_agg := Some {| a_jugador_id := k;
                          partidos_total := zsum (map e_partidos g);
                          minutos_total := zsum (map e_minutos g);
                          goles_total := zsum (map e_goles_marcados g);
                          encajados_total := zsum (map e_goles_encajados g);
                          amarillas_total := zsum (map e_amarillas g);
                          rojas_total := zsum (map e_rojas g);
                          ultima_semana := latest (map e_week_end g) |};
         v_minutos_total := zsum (map e_minutos g);
         v_partidos_total := Some (zsum (map e_partidos g)) |}
  end.

(** No player's entries mix a known week end with a missing one. *)
Definition week_end_consistent (es : list entry) : Prop :=
  forall e1 e2, In e1 es -> In e2 es -> e_jugador_id e1 = e_jugador_id e2 ->
  e_week_end e1 = None -> e_week_end e2 = None.

(** [a] may be shown before [b]: more minutes, or as many minutes and at
    least as many matches (a missing match total goes last). *)
Definition presented_before (a b : view_row) : Prop :=
  v_minutos_total b < v_minutos_total a
  \/ (v_minutos_total a = v_minutos_total b
      /\ match v_partidos_total a, v_partidos_total b with
         | Some x, Some y => y <= x
         | None, Some _ => False
         | _, _ => True
         end).

End AcumSpec.

(* ------------------------------------------------------------------ *)
(** ** Page filters of the accumulated table *)

Module FilterDefs.
Import Acum AcumSpec.
Local Open Scope string_scope.
(** A multiselect filter: an empty selection keeps everything. *)
Definition selected (sel : list string) (x : string) : bool :=
  match sel with [] => true | _ => existsb (String.eqb x) sel end.

(** The players the page keeps, by its filter widgets. *)
Definition passes (es : list entry) (estados puestos paises : list string) (solo_con_min : bool)
  (p : player) : bool :=
  selected estados (p_estado p) && selected puestos (p_puesto p)
  && selected paises (p_pais_prestamo p)
  && (negb solo_con_min || Z.ltb 0 (v_minutos_total (player_row es p))).
End FilterDefs.

(* ------------------------------------------------------------------ *)
(** ** Player selector labels *)

Module SelectDefs.
Import Py Frame.
Local Open Scope string_scope.

(** [df["nombre"].astype(str) + " — " + df["club_prestamo"].astype(str)
    + " (" + df["puesto"].astype(str) + ")"] on one row. *)
Definition player_label (cols : list string) (r : list pyval) : string :=
  py_str (get cols r "nombre") ++ " — " ++ py_str (get cols r "club_prestamo")
  ++ " (" ++ py_str (get cols r "puesto") ++ ")".

(** [label_to_id = dict(zip(df["label"], df["jugador_id"]))]; [None] is
    the [KeyError] of a missing column. *)
Definition label_to_id (df : frame) : option dict :=
  if has_col "nombre" (columns df) && has_col "club_prestamo" (columns df)
     && has_col "puesto" (columns df) && has_col "jugador_id" (columns df)
  then Some (fold_left (fun d r => dict_set d (player_label (columns df) r)
                                     (get (columns df) r "jugador_id"))
               (rows df) [])
  else None.
End SelectDefs.

(* ------------------------------------------------------------------ *)
(** ** Worksheet storage *)

Module StoreDefs.
Import Py Frame.
Local Open Scope string_scope.

(** One cell of [df.fillna("").astype(str)] in a column of text cells:
    a missing value becomes the empty string. *)
Definition sheet_cell (x : pyval) : string :=
  match x with
  | PNone | PNaN | PNaT => ""
  | _ => py_str x
  end.


(** The grid [_df_to_ws_overwrite(ws, df, cols)] leaves in the worksheet:
    [ws.clear()], the header [cols], then the rows unless [df_out.empty]. *)
Definition _df_to_ws_overwrite (df : frame) (cols : list string) : list (list string) :=
  let df_out := select (fill_missing df cols) cols in
  cols :: (if empty df_out then [] else map (map sheet_cell) (rows df_out)).

(** [_ws_to_df(ws)] on the grid [ws.get_all_values()] returns. *)
Definition _ws_to_df (values : list (list string)) : frame :=
  match values with
  | [] => {| columns := []; rows := [] |}
  | [header] => {| columns := header; rows := [] |}
  | header :: data => {| columns := header; rows := map (map PStr) data |}
  end.
End StoreDefs.

(* ------------------------------------------------------------------ *)
(** ** Soft delete with a reason *)

Module UpsertDefs.
Import Py Frame.
Local Open Scope string_scope.

(** A row of the required player columns for identifier [i], every other
    cell empty. *)
Definition req_row (i : string) : list pyval :=
  map (fun c => if String.eqb c "jugador_id" then PStr i else PStr "") REQUIRED_JUGADORES_COLS.
End UpsertDefs.

(* ------------------------------------------------------------------ *)
(** ** Display tables and the administration page *)

Module PrettyDefs.
Import Py Normalize Frame.
Local Open Scope string_scope.

Definition DISPLAY_LABELS : list (string * string) :=
  [("jugador_id", "ID jugador"); ("nombre", "Nombre"); ("puesto", "Puesto");
   ("fecha_nacimiento", "Fecha de nacimiento"); ("pais_prestamo", "País");
   ("division_prestamo", "División"); ("club_prestamo", "Club");
   ("opcion_compra", "Opción de compra"); ("posibilidad_repesca", "Posibilidad de repesca");
   ("fecha_retorno", "Fecha de retorno"); ("fin_contrato_aaaj", "Fin de contrato AAAJ");
   ("estado", "Estado"); ("observaciones", "Observaciones");
   ("registro_id", "ID registro"); ("week_start", "Semana (inicio)");
   ("week_end", "Semana (fin)"); ("partidos", "Partidos"); ("minutos", "Minutos");
   ("goles_marcados", "Goles"); ("goles_encajados", "Goles encajados");
   ("amarillas", "Amarillas"); ("rojas", "Rojas"); ("incidencias", "Incidencias");
   ("reporte_id", "ID reporte"); ("titulo", "Título"); ("fecha_reporte", "Fecha del reporte");
   ("fecha_creacion", "Creado (fecha y hora)"); ("contenido", "Reporte");
   ("partidos_total", "Partidos (total)"); ("minutos_total", "Minutos (total)");
   ("goles_total", "Goles (total)"); ("encajados_total", "Goles encajados (total)");
   ("amarillas_total", "Amarillas (total)"); ("rojas_total", "Rojas (total)");
   ("ultima_semana", "Última semana")].

Definition upper_char (c : ascii) : ascii :=
  let n := nat_of_ascii c in
  if ((97 <=? n) && (n <=? 122))%nat then ascii_of_nat (n - 32) else c.

Definition is_cased (c : ascii) : bool :=
  let n := nat_of_ascii c in
  ((65 <=? n) && (n <=? 90))%nat || ((97 <=? n) && (n <=? 122))%nat.

Fixpoint title_l (prev_cased : bool) (l : list ascii) : list ascii :=
  match l with
  | [] => []
  | c :: r => (if prev_cased then lower_char c else upper_char c) :: title_l (is_cased c) r
  end.

(** [str.title()] on the ASCII range: a letter is upper-cased after a
    character that is not a letter, lower-cased after a letter. *)
Definition title (s : string) : string :=
  string_of_list_ascii (title_l false (list_ascii_of_string s)).

(** [s.replace("_", " ")]. *)
Definition replace_us (s : string) : string :=
  string_of_list_ascii
    (map (fun c => if Ascii.eqb c "_"%char then " "%char else c) (list_ascii_of_string s)).

(** [DISPLAY_LABELS.get(c, c.replace("_", " ").title())]. *)
Definition display_label (c : string) : string :=
  match assoc_str c DISPLAY_LABELS with
  | Some l => l
  | None => title (replace_us c)
  end.

(** [pretty_df(df, cols, hide_internal_ids)]. *)
Definition pretty_df (df : frame) (cols : list string) (hide_internal_ids : bool) : frame :=
  let cols2 := if hide_internal_ids
               then filter (fun c => negb (str_in c ["jugador_id"; "registro_id"; "reporte_id"])) cols
               else cols in
  let out := select (fill_missing df cols2) cols2 in
  {| columns := map display_label cols2; rows := rows out |}.

(** The column order of the administration page: [cols_front] (those
    present), then the other columns of the table. *)
Definition admin_cols (df_s : frame) : list string :=
  let cols_front := filter (fun c => has_col c (columns df_s))
        ["week_start"; "week_end"; "jugador_id"; "partidos"; "minutos";
         "goles_marcados"; "goles_encajados"; "amarillas"; "rojas"; "incidencias";
         "registro_id"] in
  let cols_rest := filter (fun c => negb (str_in c cols_front)) (columns df_s) in
  app cols_front cols_rest.

(** The table handed to [st.data_editor] on the administration page. *)
Definition admin_view (df_s : frame) : frame :=
  pretty_df (select df_s (admin_cols df_s)) (admin_cols df_s) false.

(** [{v: k for k, v in DISPLAY_LABELS.items()}], looked up with
    [inverse_labels.get(c, c)]: the last key of a label wins. *)
Definition inverse_label (c : string) : string :=
  match assoc_str c (rev (map (fun kv => (snd kv, fst kv)) DISPLAY_LABELS)) with
  | Some k => k
  | None => c
  end.

(** [df.rename(columns=...)] with a function on labels. *)
Definition rename_cols (f : string -> string) (df : frame) : frame :=
  {| columns := map f (columns df); rows := rows df |}.

(** [df[c] = v] for a scalar [v]. *)
Definition assign_col (df : frame) (c : string) (v : pyval) : frame :=
  match index_of c (columns df) with
  | Some i => {| columns := columns df; rows := map (list_set i v) (rows df) |}
  | None => add_const_col df c v
  end.

(** [s.replace("", np.nan).fillna(now)] on one cell. *)
Definition fill_blank (now : string) (x : pyval) : pyval :=
  match x with
  | PStr "" | PNone | PNaN | PNaT => PStr now
  | _ => x
  end.

(** The save button of the administration page on the edited table
    [edited_pretty]; [now_u] and [now_c] are the two [hoy_str()] calls. *)
Definition admin_save (edited_pretty : frame) (now_u now_c : string) : frame :=
  let df_new := rename_cols inverse_label edited_pretty in
  let df_new := assign_col df_new "updated_at" (PStr now_u) in
  let df_new := apply_col (fill_blank now_c) "created_at" df_new in
  select (fill_missing df_new REQUIRED_SEGUIMIENTO_COLS) REQUIRED_SEGUIMIENTO_COLS.
End PrettyDefs.

(* ================================================================== *)
(** * Properties *)

(* ------------------------------------------------------------------ *)
(** ** Week windows *)

Module DatesFacts.
Import Dates.

Lemma date_add_in_range (d k : date) :
  0 < d + k <= MAXORDINAL -> date_add d k = Some (d + k).
Proof.
  intros H. unfold date_add.
  replace ((0 <? d + k) && (d + k <=? MAXORDINAL)) with true; [reflexivity|].
  symmetry. apply andb_true_intro. split; [apply Z.ltb_lt | apply Z.leb_le]; lia.
Qed.

Lemma date_add_out_of_range (d k : date) :
  MAXORDINAL < d + k -> date_add d k = None.
Proof.
  intros H. unfold date_add.
  replace (d + k <=? MAXORDINAL) with false by (symmetry; apply Z.leb_gt; lia).
  now rewrite andb_false_r.
Qed.

Lemma weekday_range (d : date) : 0 <= weekday d < 7.
Proof. unfold weekday. apply Z.mod_pos_bound. lia. Qed.

(** The Monday 9999-12-27 is the last date whose week end overflows. *)
Lemma last_monday : mk_date 9999 12 27 = Some 3652055 /\ weekday 3652055 = 0.
Proof. split; reflexivity. Qed.

Lemma get_week_start_spec (d : date) :
  valid_date d ->
  get_week_start d = Some (d - weekday d) /\ weekday (d - weekday d) = 0
  /\ valid_date (d - weekday d) /\ d - weekday d <= d <= d - weekday d + 6.
Proof.
  unfold valid_date, weekday. intros Hd.
  assert (Hm : 0 <= (d + 6) mod 7 < 7) by (apply Z.mod_pos_bound; lia).
  assert (Hws : 1 <= d - (d + 6) mod 7).
  { (* d and 1 lie in the same residue class walk: d - wd is a Monday >= 1 *)
    pose proof (Z.div_mod (d + 6) 7 ltac:(lia)). nia. }
  repeat split; try lia.
  - unfold get_week_start, weekday. rewrite date_add_in_range by lia. f_equal; lia.
  - replace (d - (d + 6) mod 7 + 6) with (7 * ((d + 6) / 7))
      by (pose proof (Z.div_mod (d + 6) 7 ltac:(lia)); lia).
    rewrite Z.mul_comm. apply Z.mod_mul. lia.
Qed.

End DatesFacts.

Module WeekWindow.
Import Dates DatesFacts.

Lemma week_end_exists (d : date) :
  valid_date d -> d < 3652055 ->
  get_week_end_from_start (d - weekday d) = Some (d - weekday d + 6).
Proof.
  intros Hd Hlt. destruct (get_week_start_spec d Hd) as (_ & Hmon & _ & Hle).
  unfold get_week_end_from_start. apply date_add_in_range.
  unfold valid_date, weekday in *.
  pose proof (Z.div_mod (d - (d + 6) mod 7 + 6) 7 ltac:(lia)).
  rewrite Hmon in *. unfold MAXORDINAL. lia.
Qed.

Lemma week_end_overflow (d : date) :
  valid_date d -> 3652055 <= d ->
  get_week_end_from_start (d - weekday d) = None.
Proof.
  intros Hd Hge. destruct (get_week_start_spec d Hd) as (_ & Hmon & _ & Hle).
  unfold get_week_end_from_start. apply date_add_out_of_range.
  unfold valid_date, weekday in *.
  pose proof (Z.div_mod (d - (d + 6) mod 7 + 6) 7 ltac:(lia)).
  rewrite Hmon in *. unfold MAXORDINAL. lia.
Qed.

(** C6 (amended).  For every date [d], [get_week_start(d)] is
    [d - d.weekday()], a Monday, and [week_start <= d <= week_start + 6];
    [get_week_end_from_start] returns [week_start + 6] for every [d] up to
    9999-12-26, and raises [OverflowError] (here [None]) for the last
    week of year 9999, whose Sunday is past [date.max]. *)
Theorem week_window_monday (d : date) :
  valid_date d ->
  exists ws,
    get_week_start d = Some ws /\ ws = d - weekday d /\ weekday ws = 0
    /\ ws <= d <= ws + 6
    /\ (d < 3652055 -> get_week_end_from_start ws = Some (ws + 6))
    /\ (3652055 <= d -> get_week_end_from_start ws = None).
Proof.
  intros Hd. destruct (get_week_start_spec d Hd) as (Hws & Hmon & _ & Hle).
  exists (d - weekday d). repeat split; auto; try lia.
  - intros Hlt. now apply week_end_exists.
  - intros Hge. now apply week_end_overflow.
Qed.

Lemma week_window_monday_witness :
  valid_date 738949 /\ weekday 738949 = 0 /\
  exists ws, get_week_start 738949 = Some ws /\ ws = 738949 - weekday 738949
    /\ weekday ws = 0 /\ ws <= 738949 <= ws + 6
    /\ (738949 < 3652055 -> get_week_end_from_start ws = Some (ws + 6))
    /\ (3652055 <= 738949 -> get_week_end_from_start ws = None).
Proof.
  split; [unfold valid_date, MAXORDINAL; lia|]. split; [reflexivity|].
  apply (week_window_monday 738949). unfold valid_date, MAXORDINAL; lia.
Defined.

(** C6 (counterexample).  The week starting on Monday 9999-12-27 has no
    week end: [get_week_end_from_start(date(9999, 12, 27))] raises
    [OverflowError]. *)
Lemma week_end_overflows_9999_12_27 :
  mk_date 9999 12 27 = Some 3652055
  /\ get_week_start 3652055 = Some 3652055
  /\ get_week_end_from_start 3652055 = None.
Proof. repeat split; reflexivity. Qed.

(** C7 (amended).  The code has no Sunday-anchored configuration; its
    Sunday week end of [d] is [get_week_end_from_start(get_week_start(d))].
    For every date [d] up to 9999-12-26 this is [d + (6 - d.weekday())],
    a Sunday, with [d <= week_end <= d + 6]; for [d] from 9999-12-27 on,
    computing it raises [OverflowError] ([None]). *)
Theorem sunday_week_end (d : date) :
  valid_date d ->
  (d < 3652055 ->
   exists we, week_end_of d = Some we /\ we = d + (6 - weekday d)
     /\ weekday we = 6 /\ d <= we /\ we - d <= 6)
  /\ (3652055 <= d -> week_end_of d = None).
Proof.
  intros Hd. destruct (get_week_start_spec d Hd) as (Hws & Hmon & _ & Hle).
  pose proof (weekday_range d) as Hr.
  unfold week_end_of. rewrite Hws. split.
  - intros Hlt. rewrite (week_end_exists d Hd Hlt).
    exists (d - weekday d + 6). repeat split; try lia.
    unfold weekday in *.
    replace (d - (d + 6) mod 7 + 6 + 6) with ((d - (d + 6) mod 7 + 6) + 6) by lia.
    rewrite Zplus_mod, Hmon. reflexivity.
  - intros Hge. now apply week_end_overflow.
Qed.

Lemma sunday_week_end_witness :
  valid_date 738951 /\
  ((738951 < 3652055 ->
    exists we, week_end_of 738951 = Some we /\ we = 738951 + (6 - weekday 738951)
      /\ weekday we = 6 /\ 738951 <= we /\ we - 738951 <= 6)
   /\ (3652055 <= 738951 -> week_end_of 738951 = None)).
Proof.
  split; [unfold valid_date, MAXORDINAL; lia|].
  apply (sunday_week_end 738951). unfold valid_date, MAXORDINAL; lia.
Defined.

(** C7 (counterexample).  For [d = 9999-12-31] there is no week end:
    [get_week_end_from_start(get_week_start(d))] raises [OverflowError]. *)
Lemma sunday_week_end_overflows_9999_12_31 :
  mk_date 9999 12 31 = Some 3652059 /\ week_end_of 3652059 = None.
Proof. split; reflexivity. Qed.

End WeekWindow.

(* ------------------------------------------------------------------ *)
(** ** DataFrame lemmas: rows read as functions from labels to cells *)

Module FrameFacts.
Import Dates Py Normalize Frame.
Local Open Scope string_scope.

(** Row [r] of a frame with columns [cols] reads as [f]: one cell per
    column, and [get cols r c = f c] for every label. *)
Definition row_denotes (cols : list string) (r : list pyval) (f : string -> pyval) : Prop :=
  List.length r = List.length cols /\ forall c, get cols r c = f c.

Definition denotes (df : frame) (fs : list (string -> pyval)) : Prop :=
  Forall2 (row_denotes (columns df)) (rows df) fs.

Lemma index_of_some c l i :
  index_of c l = Some i -> (i < List.length l)%nat /\ nth i l "" = c.
Proof.
  revert i; induction l as [|h t IH]; intros i H; simpl in H; [discriminate|].
  destruct (String.eqb_spec c h) as [->|Hne].
  - injection H as <-. simpl. split; [lia|reflexivity].
  - destruct (index_of c t) as [j|] eqn:E; [|discriminate].
    injection H as <-. destruct (IH j eq_refl) as [H1 H2]. simpl. split; [lia|exact H2].
Qed.

Lemma index_of_none c l : index_of c l = None -> ~ In c l.
Proof.
  induction l as [|h t IH]; simpl; [tauto|].
  destruct (String.eqb_spec c h); [discriminate|].
  destruct (index_of c t); [discriminate|]. intros _ [H|H]; [congruence|tauto].
Qed.

Lemma index_of_in c l : In c l -> exists i, index_of c l = Some i.
Proof.
  intros H. destruct (index_of c l) as [i|] eqn:E; [eauto|].
  exfalso. exact (index_of_none c l E H).
Qed.

Lemma index_of_inj c c' l i :
  index_of c l = Some i -> index_of c' l = Some i -> c = c'.
Proof.
  intros H H'. apply index_of_some in H as [_ H]. apply index_of_some in H' as [_ H'].
  congruence.
Qed.

Lemma index_of_app c l1 l2 :
  index_of c (app l1 l2)
  = match index_of c l1 with
    | Some i => Some i
    | None => option_map (fun j => (List.length l1 + j)%nat) (index_of c l2)
    end.
Proof.
  induction l1 as [|h t IH]; simpl.
  - destruct (index_of c l2); reflexivity.
  - destruct (String.eqb c h); [reflexivity|]. rewrite IH.
    destruct (index_of c t); [reflexivity|]. destruct (index_of c l2); reflexivity.
Qed.

Lemma has_col_in c l : has_col c l = true <-> In c l.
Proof.
  unfold has_col. split.
  - destruct (index_of c l) as [i|] eqn:E; [|discriminate]. intros _.
    apply index_of_some in E as [H1 H2]. rewrite <- H2. apply nth_In. exact H1.
  - intros H. destruct (index_of_in c l H) as [i ->]. reflexivity.
Qed.

Lemma get_none cols r c : index_of c cols = None -> get cols r c = PNaN.
Proof. unfold get. now intros ->. Qed.

Lemma nth_const {A} (l : list A) (a : A) j :
  (forall x, In x l -> x = a) -> nth j l a = a.
Proof.
  intros H. destruct (Nat.lt_ge_cases j (List.length l)) as [Hl|Hl].
  - apply H. apply nth_In. exact Hl.
  - apply nth_overflow. exact Hl.
Qed.

Lemma get_app cols extra r ys c :
  List.length r = List.length cols ->
  get (app cols extra) (app r ys) c
  = match index_of c cols with
    | Some _ => get cols r c
    | None => match index_of c extra with Some j => nth j ys PNaN | None => PNaN end
    end.
Proof.
  intros Hlen. unfold get. rewrite index_of_app.
  destruct (index_of c cols) as [i|] eqn:E.
  - apply index_of_some in E as [Hi _]. apply app_nth1. lia.
  - destruct (index_of c extra) as [j|]; simpl; [|reflexivity].
    rewrite app_nth2 by lia. f_equal. lia.
Qed.

Lemma get_map_cols cols (f : string -> pyval) c :
  get cols (map f cols) c = match index_of c cols with Some _ => f c | None => PNaN end.
Proof.
  unfold get. destruct (index_of c cols) as [i|] eqn:E; [|reflexivity].
  apply index_of_some in E as [Hi Hn].
  rewrite (nth_indep _ PNaN (f "")) by (rewrite length_map; exact Hi).
  rewrite map_nth. now rewrite Hn.
Qed.

Lemma length_list_set {A} i (v : A) l : List.length (list_set i v l) = List.length l.
Proof.
  revert i; induction l as [|x l IH]; intros [|i]; simpl; auto.
Qed.

Lemma nth_list_set {A} i j (v d : A) l :
  (i < List.length l)%nat ->
  nth j (list_set i v l) d = if Nat.eqb j i then v else nth j l d.
Proof.
  revert i j; induction l as [|x l IH]; intros i j Hi; simpl in Hi; [lia|].
  destruct i as [|i], j as [|j]; simpl; auto.
  apply IH. lia.
Qed.

Lemma get_list_set cols r k i v c :
  List.length r = List.length cols -> index_of k cols = Some i ->
  get cols (list_set i v r) c = if String.eqb c k then v else get cols r c.
Proof.
  intros Hlen Hk. pose proof (index_of_some _ _ _ Hk) as [Hi _].
  unfold get. destruct (String.eqb_spec c k) as [->|Hne].
  - rewrite Hk, nth_list_set by lia. now rewrite Nat.eqb_refl.
  - destruct (index_of c cols) as [j|] eqn:Ec; [|reflexivity].
    rewrite nth_list_set by lia.
    destruct (Nat.eqb_spec j i) as [->|]; [|reflexivity].
    exfalso. apply Hne. exact (index_of_inj _ _ _ _ Ec Hk).
Qed.

Lemma row_denotes_ext cols r f g :
  row_denotes cols r f -> (forall c, f c = g c) -> row_denotes cols r g.
Proof. intros [H1 H2] H. split; [exact H1|]. intros c. rewrite H2. apply H. Qed.

Lemma denotes_map cols cols' rs fs (F : list pyval -> list pyval)
  (G : (string -> pyval) -> string -> pyval) :
  Forall2 (row_denotes cols) rs fs ->
  (forall r f, row_denotes cols r f -> row_denotes cols' (F r) (G f)) ->
  Forall2 (row_denotes cols') (map F rs) (map G fs).
Proof. intros H HFG. induction H; simpl; constructor; auto. Qed.

Lemma denotes_zip cols cols' rs fs (mask : list bool)
  (F : bool -> list pyval -> list pyval) (G : bool -> (string -> pyval) -> string -> pyval) :
  Forall2 (row_denotes cols) rs fs -> List.length mask = List.length fs ->
  (forall m r f, row_denotes cols r f -> row_denotes cols' (F m r) (G m f)) ->
  Forall2 (row_denotes cols') (zip_with F mask rs) (zip_with G mask fs).
Proof.
  intros H. revert mask. induction H as [|r f rs fs Hrf H IH]; intros [|m ms] Hl HFG;
    simpl in *; try discriminate; constructor; auto.
Qed.

Lemma denotes_loc_set df fs mask k v :
  denotes df fs -> List.length mask = List.length fs ->
  denotes (loc_set df mask k v)
    (zip_with (fun (m : bool) (f : string -> pyval) c =>
                 if m && String.eqb c k then v else f c) mask fs).
Proof.
  unfold denotes, loc_set. intros H Hl.
  destruct (index_of k (columns df)) as [i|] eqn:Ek; simpl.
  - apply (denotes_zip (columns df)); auto. intros m r f [Hlen Hget]. destruct m; simpl.
    + split; [now rewrite length_list_set|]. intros c.
      rewrite (get_list_set _ _ _ _ _ _ Hlen Ek). destruct (String.eqb c k); auto.
    + split; auto.
  - apply (denotes_zip (columns df)); auto. intros m r f [Hlen Hget].
    split; [rewrite !length_app; simpl; lia|]. intros c.
    rewrite get_app by exact Hlen.
    destruct (index_of c (columns df)) as [j|] eqn:Ec.
    + destruct (String.eqb_spec c k) as [->|]; [congruence|].
      rewrite andb_false_r. apply Hget.
    + simpl. destruct (String.eqb_spec c k) as [->|]; simpl.
      * rewrite andb_true_r. destruct m; [reflexivity|]. rewrite <- Hget.
        symmetry. now apply get_none.
      * rewrite andb_false_r, <- Hget. symmetry. now apply get_none.
Qed.

Lemma assoc_str_none {A} k (l : list (string * A)) :
  ~ In k (map fst l) -> assoc_str k l = None.
Proof.
  induction l as [|[k' v] l IH]; simpl; [reflexivity|]. intros H.
  destruct (String.eqb_spec k k'); [subst; tauto|]. apply IH. tauto.
Qed.

Lemma denotes_concat_row df fs row :
  denotes df fs -> denotes (concat_row df row) (app fs [dict_get row]).
Proof.
  unfold denotes, concat_row. intros H. simpl. apply Forall2_app.
  - rewrite <- (map_id fs). apply denotes_map with (1 := H). intros r f [Hlen Hget].
    split; [rewrite !length_app, length_map; lia|]. intros c.
    rewrite get_app by exact Hlen.
    destruct (index_of c (columns df)) as [j|] eqn:Ec; [apply Hget|].
    rewrite <- Hget, get_none by exact Ec.
    destruct (index_of c (filter _ _)) as [j|]; [|reflexivity].
    apply nth_const. intros x Hx. apply in_map_iff in Hx as (y & <- & _). reflexivity.
  - constructor; [|constructor]. split; [now rewrite length_map|]. intros c.
    rewrite get_map_cols. destruct (index_of c _) as [j|] eqn:Ec; [reflexivity|].
    unfold dict_get. rewrite assoc_str_none; [reflexivity|].
    intros Hin. apply (index_of_none _ _ Ec). apply in_or_app.
    destruct (has_col c (columns df)) eqn:Hh.
    + left. now apply has_col_in.
    + right. apply filter_In. split; [exact Hin|]. now rewrite Hh.
Qed.

Lemma fill_missing_noop df L :
  (forall c, In c L -> has_col c (columns df) = true) -> fill_missing df L = df.
Proof.
  unfold fill_missing. induction L as [|c L IH]; intros H; simpl; [reflexivity|].
  rewrite (H c (or_introl eq_refl)). apply IH. intros c' Hc'. apply H. now right.
Qed.

Lemma denotes_select df fs L :
  denotes df fs ->
  denotes (select df L)
    (map (fun f c => match index_of c L with Some _ => f c | None => PNaN end) fs).
Proof.
  unfold denotes, select. simpl. intros H. apply denotes_map with (1 := H).
  intros r f [Hlen Hget]. split; [now rewrite length_map|]. intros c.
  rewrite get_map_cols. destruct (index_of c L); auto.
Qed.

Lemma rows_select df fs L :
  denotes df fs -> rows (select df L) = map (fun f => map f L) fs.
Proof.
  unfold denotes, select. simpl. intros H. induction H as [|r f rs fs [_ Hget] H IH];
    simpl; [reflexivity|]. rewrite IH. f_equal. apply map_ext. exact Hget.
Qed.

Lemma column_denotes df fs c i :
  denotes df fs -> index_of c (columns df) = Some i ->
  column df c = Some (map (fun f => f c) fs).
Proof.
  unfold denotes, column. intros H Ei. rewrite Ei. f_equal.
  induction H as [|r f rs fs [_ Hget] H IH]; simpl; [reflexivity|].
  rewrite IH, <- Hget. unfold get. now rewrite Ei.
Qed.

Lemma id_mask_denotes df fs key :
  denotes df fs -> has_col "jugador_id" (columns df) = true ->
  id_mask df key = Some (map (fun f => String.eqb (py_str (f "jugador_id")) key) fs).
Proof.
  unfold id_mask, has_col. intros H Hc.
  destruct (index_of "jugador_id" (columns df)) as [i|] eqn:E; [|discriminate].
  rewrite (column_denotes _ _ _ _ H E). now rewrite map_map.
Qed.

(** A well-formed frame denotes its rows read through [get]. *)
Lemma denotes_wf df :
  well_formed df -> denotes df (map (get (columns df)) (rows df)).
Proof.
  unfold well_formed, denotes. intros H. induction H; simpl; constructor; auto.
  split; auto.
Qed.

Lemma denotes_length df fs : denotes df fs -> List.length (rows df) = List.length fs.
Proof. apply Forall2_length. Qed.

End FrameFacts.

(* ------------------------------------------------------------------ *)
(** ** Hard delete *)

Module HardDelete.
Import Py Frame FrameFacts Spec.
Local Open Scope string_scope.

Lemma drop_player_spec df y :
  has_col "jugador_id" (columns df) = true ->
  exists df', drop_player df y = Some df' /\ removes_player df df' y.
Proof.
  unfold has_col, drop_player. intros H.
  destruct (index_of "jugador_id" (columns df)) as [i|] eqn:E; [|discriminate].
  eexists; split; [reflexivity|].
  assert (Hb : forall r, belongs (columns df) r y
                         = String.eqb (py_str (nth i r PNaN)) y)
    by (intros r; unfold belongs, get; now rewrite E).
  unfold removes_player; simpl. split; [reflexivity|]. split.
  - apply filter_ext. intros r. now rewrite Hb.
  - intros r. rewrite filter_In, Hb. destruct (String.eqb _ y); simpl; intuition congruence.
Qed.

(** C5.  Hard-deleting player [y] removes from the player, weekly-log and
    report tables exactly the rows whose [jugador_id] is [y] and keeps
    every other row unchanged and in order. *)
Theorem hard_delete_cascade (df_j df_s df_r : frame) (y : string) :
  has_col "jugador_id" (columns df_j) = true ->
  has_col "jugador_id" (columns df_s) = true ->
  has_col "jugador_id" (columns df_r) = true ->
  exists j s r,
    eliminar_jugador_hard df_j df_s df_r y = Some (j, s, r)
    /\ removes_player df_j j y /\ removes_player df_s s y /\ removes_player df_r r y.
Proof.
  intros Hj Hs Hr.
  destruct (drop_player_spec df_j y Hj) as (j & Ej & Rj).
  destruct (drop_player_spec df_s y Hs) as (s & Es & Rs).
  destruct (drop_player_spec df_r y Hr) as (r & Er & Rr).
  exists j, s, r. unfold eliminar_jugador_hard. rewrite Ej, Es, Er. auto.
Qed.

Lemma hard_delete_cascade_witness :
  let tj := {| columns := ["jugador_id"; "nombre"];
               rows := [[PStr "Y"; PStr "Ana"]; [PStr "Z"; PStr "Eva"]] |} in
  let ts := {| columns := ["registro_id"; "jugador_id"];
               rows := [[PStr "r1"; PStr "Y"]; [PStr "r2"; PStr "Z"]; [PStr "r3"; PStr "Y"]] |} in
  let tr := {| columns := ["reporte_id"; "jugador_id"]; rows := [[PStr "p1"; PStr "Z"]] |} in
  has_col "jugador_id" (columns tj) = true /\ has_col "jugador_id" (columns ts) = true
  /\ has_col "jugador_id" (columns tr) = true
  /\ exists j s r, eliminar_jugador_hard tj ts tr "Y" = Some (j, s, r)
       /\ removes_player tj j "Y" /\ removes_player ts s "Y" /\ removes_player tr r "Y".
Proof.
  intros tj ts tr. split; [reflexivity|]. split; [reflexivity|]. split; [reflexivity|].
  apply hard_delete_cascade; reflexivity.
Defined.

End HardDelete.

(* ------------------------------------------------------------------ *)
(** ** More DataFrame facts: masks given row by row, payload folds *)

Module FrameFacts2.
Import Py Normalize Frame FrameFacts Spec.
Local Open Scope string_scope.

Lemma denotes_ext_map {X} df (l : list X) (h h' : X -> string -> pyval) :
  denotes df (map h l) -> (forall x c, In x l -> h x c = h' x c) -> denotes df (map h' l).
Proof.
  unfold denotes. generalize (rows df). induction l as [|x l IH]; intros rs H Hext;
    simpl in *; inversion H; subst; constructor.
  - apply row_denotes_ext with (h x); auto.
  - apply IH; auto.
Qed.

Lemma zip_with_map2 {X A B C} (G : A -> B -> C) (b : X -> A) (h : X -> B) l :
  zip_with G (map b l) (map h l) = map (fun x => G (b x) (h x)) l.
Proof. induction l; simpl; congruence. Qed.


Lemma well_formed_select df L : well_formed (select df L).
Proof.
  unfold well_formed, select. simpl. apply Forall_forall. intros r Hr.
  apply in_map_iff in Hr as (r0 & <- & _). apply length_map.
Qed.

Lemma get_map_cols_in L (f : string -> pyval) c : In c L -> get L (map f L) c = f c.
Proof.
  intros H. rewrite get_map_cols. destruct (index_of_in c L H) as [i ->]. reflexivity.
Qed.


Lemma has_col_loc_set c df m k v :
  has_col c (columns df) = true -> has_col c (columns (loc_set df m k v)) = true.
Proof.
  rewrite !has_col_in. unfold loc_set. destruct (index_of k (columns df)); simpl; auto.
  intros H. apply in_or_app. auto.
Qed.

Lemma has_col_fold_loc_set c p m df :
  has_col c (columns df) = true ->
  has_col c (columns (fold_left (fun d kv => loc_set d m (fst kv) (snd kv)) p df)) = true.
Proof.
  revert df; induction p as [|kv p IH]; intros df H; simpl; auto.
  apply IH. now apply has_col_loc_set.
Qed.

(** Every [loc_set] of a payload through the same mask: the selected rows
    read the payload's values, the others are unchanged. *)
Lemma denotes_fold_loc_set {X} (l : list X) (b : X -> bool) p :
  forall (h : X -> string -> pyval) df,
  denotes df (map h l) ->
  denotes (fold_left (fun d kv => loc_set d (map b l) (fst kv) (snd kv)) p df)
    (map (fun x c => if b x then payload_value p c (h x c) else h x c) l).
Proof.
  induction p as [|[k v] p IH]; intros h df H; simpl.
  - apply (denotes_ext_map _ _ h); auto. intros x c _. now destruct (b x).
  - pose proof (denotes_loc_set _ _ (map b l) k v H) as H1.
    rewrite zip_with_map2 in H1. specialize (H1 ltac:(now rewrite !length_map)).
    apply IH in H1. apply (denotes_ext_map _ _ _ _ H1). intros x c _.
    destruct (b x); reflexivity.
Qed.

Lemma dict_get_set d k v c :
  dict_get (dict_set d k v) c = if String.eqb c k then v else dict_get d c.
Proof.
  unfold dict_get. induction d as [|[k' v'] d IH]; simpl.
  - destruct (String.eqb c k); reflexivity.
  - destruct (String.eqb_spec k k') as [->|Hne]; simpl.
    + destruct (String.eqb c k'); reflexivity.
    + destruct (String.eqb_spec c k') as [->|]; rewrite ?IH.
      * destruct (String.eqb_spec k' k); congruence.
      * reflexivity.
Qed.

Lemma dict_get_update d p c :
  dict_get (dict_update d p) c = payload_value p c (dict_get d c).
Proof.
  unfold dict_update, payload_value. revert d.
  induction p as [|[k v] p IH]; intros d; simpl; [reflexivity|].
  rewrite IH, dict_get_set. reflexivity.
Qed.

Lemma keys_dict_set d k v c : In c (map fst d) -> In c (map fst (dict_set d k v)).
Proof.
  induction d as [|[k' v'] d IH]; simpl; [tauto|].
  destruct (String.eqb k k'); simpl; tauto.
Qed.

Lemma keys_dict_update d p c : In c (map fst d) -> In c (map fst (dict_update d p)).
Proof.
  unfold dict_update. revert d. induction p as [|kv p IH]; intros d H; simpl; auto.
  apply IH. now apply keys_dict_set.
Qed.

Lemma dict_get_const L v c : In c L -> dict_get (map (fun k => (k, v)) L) c = v.
Proof.
  unfold dict_get. induction L as [|k L IH]; simpl; [tauto|]. intros H.
  destruct (String.eqb_spec c k); [reflexivity|]. apply IH. destruct H; congruence.
Qed.

Lemma has_col_concat_row c df row :
  In c (map fst row) -> has_col c (columns (concat_row df row)) = true.
Proof.
  intros H. apply has_col_in. simpl. apply in_or_app.
  destruct (has_col c (columns df)) eqn:E.
  - left. now apply has_col_in.
  - right. apply filter_In. now rewrite E.
Qed.


Lemma payload_value_notin p c d : ~ In c (map fst p) -> payload_value p c d = d.
Proof.
  unfold payload_value. revert d. induction p as [|[k v] p IH]; intros d H; simpl in *;
    [reflexivity|].
  destruct (String.eqb_spec c k); [subst; tauto|]. apply IH. tauto.
Qed.

End FrameFacts2.

(* ------------------------------------------------------------------ *)
(** ** Soft delete *)

Module SoftDelete.
Import Py Frame FrameFacts FrameFacts2 Spec.
Local Open Scope string_scope.




End SoftDelete.

(* ------------------------------------------------------------------ *)
(** ** Upsert *)

Module Upsert.
Import Py Frame FrameFacts FrameFacts2 Spec.
Local Open Scope string_scope.

Lemma existsb_app_last (l : list bool) :
  existsb (fun x => x) (app l [true]) = true.
Proof. rewrite existsb_app. simpl. now rewrite orb_true_r. Qed.

(** C3.  Upserting a new identifier [i] with payload [p1] at time [now1],
    then upserting [i] again with payload [p2] (which sets neither the
    identifier nor the creation time) at [now2], gives tables with exactly
    the required player columns.  The rows already there are kept in
    order and read through the required labels, a label the table
    lacked reading NaN; the new row holds the identifier, the creation
    time [now1], the update time and the payload values, the empty string
    elsewhere; the second upsert changes only that row, writing [p2]'s
    fields and the update time [now2]. *)
Theorem upsert_round_trip (T : frame) (i : string) (p1 p2 : dict) (now1 now2 : string) :
  well_formed T ->
  has_col "jugador_id" (columns T) = true ->
  (forall r, In r (rows T) -> belongs (columns T) r i = false) ->
  (forall k, In k (map fst p2) -> k <> "jugador_id" /\ k <> "created_at") ->
  exists T1 T2,
    upsert_jugador T i p1 now1 = Some T1
    /\ upsert_jugador T1 i p2 now2 = Some T2
    /\ columns T1 = REQUIRED_JUGADORES_COLS
    /\ columns T2 = REQUIRED_JUGADORES_COLS
    /\ rows T1 = app (map (fun r => map (get (columns T) r) REQUIRED_JUGADORES_COLS) (rows T))
                     [map (inserted_row i p1 now1) REQUIRED_JUGADORES_COLS]
    /\ rows T2 = app (map (fun r => map (get (columns T) r) REQUIRED_JUGADORES_COLS) (rows T))
                     [map (updated_row (inserted_row i p1 now1) p2 now2)
                          REQUIRED_JUGADORES_COLS]
    /\ updated_row (inserted_row i p1 now1) p2 now2 "jugador_id" = PStr i
    /\ updated_row (inserted_row i p1 now1) p2 now2 "created_at" = PStr now1.
Proof.
  intros Hwf Hid Hnot Hp2.
  set (REQ := REQUIRED_JUGADORES_COLS).
  set (cols := columns T).
  set (olds := map (fun r => map (get cols r) REQ) (rows T)).
  set (ins := inserted_row i p1 now1).
  (* First upsert: the insertion branch. *)
  pose proof (denotes_wf T Hwf) as H0.
  assert (Hm0 : id_mask T i = Some (map (fun r => belongs cols r i) (rows T))).
  { rewrite (id_mask_denotes _ _ i H0 Hid), map_map. reflexivity. }
  assert (Hex0 : existsb (fun x => x) (map (fun r => belongs cols r i) (rows T)) = false).
  { destruct (existsb _ _) eqn:E; [|reflexivity].
    apply existsb_exists in E as (x & Hx & ->). apply in_map_iff in Hx as (r & Hr & Hin).
    rewrite Hnot in Hr by exact Hin. discriminate. }
  set (row := dict_set (dict_set (dict_set
                (dict_update (map (fun c => (c, PStr "")) REQ) p1)
                "jugador_id" (PStr i)) "created_at" (PStr now1)) "updated_at" (PStr now1)).
  assert (Hkeys : forall c, In c REQ -> In c (map fst row)).
  { intros c Hc. unfold row. apply keys_dict_set, keys_dict_set, keys_dict_set,
      keys_dict_update. apply in_map_iff. exists (c, PStr ""). split; [reflexivity|].
    apply (in_map (fun c => (c, PStr ""))). exact Hc. }
  assert (Hrow : forall c, In c REQ -> dict_get row c = ins c).
  { intros c Hc. unfold row, ins, inserted_row. rewrite !dict_get_set, dict_get_update,
      dict_get_const by exact Hc.
    repeat match goal with |- context [String.eqb ?a ?b] => destruct (String.eqb_spec a b) end;
      subst; simpl; congruence. }
  pose proof (denotes_concat_row T _ row H0) as H1.
  set (D1 := concat_row T row) in H1.
  assert (Hf1 : fill_missing D1 REQ = D1).
  { apply fill_missing_noop. intros c Hc. apply has_col_concat_row. auto. }
  set (T1 := select D1 REQ).
  assert (HT1 : upsert_jugador T i p1 now1 = Some T1).
  { unfold upsert_jugador. rewrite Hm0, Hex0. fold REQ. fold row. fold D1.
    now rewrite Hf1. }
  assert (HrT1 : rows T1 = app olds [map ins REQ]).
  { assert (E : map (dict_get row) REQ = map ins REQ) by (apply map_ext_in; auto).
    unfold T1. rewrite (rows_select _ _ REQ H1), map_app. f_equal.
    - rewrite map_map. reflexivity.
    - rewrite <- E. reflexivity. }
  (* Second upsert: the update branch. *)
  pose proof (denotes_wf T1 (well_formed_select D1 REQ)) as H2.
  assert (HcT1 : columns T1 = REQ) by reflexivity.
  rewrite HcT1 in H2.
  set (b0 := fun r => String.eqb (py_str (get REQ r "jugador_id")) i).
  assert (Hm1 : id_mask T1 i = Some (map b0 (rows T1))).
  { rewrite (id_mask_denotes T1 _ i H2) by (rewrite HcT1; reflexivity).
    now rewrite map_map. }
  assert (Hb_new : b0 (map ins REQ) = true).
  { unfold b0. rewrite get_map_cols_in by (simpl; auto). unfold ins, inserted_row. simpl.
    apply String.eqb_refl. }
  assert (Hb_old : forall r, In r (rows T) -> b0 (map (get cols r) REQ) = false).
  { intros r Hr. unfold b0. rewrite get_map_cols_in by (simpl; auto).
    apply Hnot. exact Hr. }
  assert (Hex1 : existsb (fun x => x) (map b0 (rows T1)) = true).
  { rewrite HrT1, map_app. change (map b0 [map ins REQ]) with [b0 (map ins REQ)].
    rewrite Hb_new. apply existsb_app_last. }
  set (h1 := fun r c => if b0 r then payload_value p2 c (get REQ r c) else get REQ r c).
  pose proof (denotes_fold_loc_set (rows T1) b0 p2 (get REQ) T1 H2) as H3.
  set (D2 := fold_left (fun d kv => loc_set d (map b0 (rows T1)) (fst kv) (snd kv)) p2 T1)
    in H3.
  pose proof (denotes_loc_set D2 _ (map b0 (rows T1)) "updated_at" (PStr now2) H3
                ltac:(now rewrite !length_map)) as H4.
  rewrite zip_with_map2 in H4.
  set (D3 := loc_set D2 (map b0 (rows T1)) "updated_at" (PStr now2)) in H4.
  assert (Hf3 : fill_missing D3 REQ = D3).
  { apply fill_missing_noop. intros c Hc. apply has_col_loc_set, has_col_fold_loc_set.
    rewrite HcT1. now apply has_col_in. }
  exists T1, (select D3 REQ).
  split; [exact HT1|].
  split.
  { unfold upsert_jugador. rewrite Hm1, Hex1. fold REQ. fold D2. fold D3. now rewrite Hf3. }
  split; [reflexivity|]. split; [reflexivity|]. split; [exact HrT1|].
  split.
  - rewrite (rows_select _ _ REQ H4), map_map, HrT1. unfold olds.
    rewrite !map_app, map_map. f_equal.
    + apply map_ext_in. intros r Hr. apply map_ext_in. intros c Hc.
      rewrite Hb_old by exact Hr. cbv beta. rewrite andb_false_l.
      now apply get_map_cols_in.
    + assert (E : forall c, In c REQ ->
        (if b0 (map ins REQ) && String.eqb c "updated_at" then PStr now2
         else if b0 (map ins REQ) then payload_value p2 c (get REQ (map ins REQ) c)
              else get REQ (map ins REQ) c)
        = updated_row ins p2 now2 c).
      { intros c Hc. rewrite Hb_new. unfold updated_row. rewrite get_map_cols_in by exact Hc.
        destruct (String.eqb c "updated_at"); reflexivity. }
      rewrite <- (map_ext_in _ _ REQ E). reflexivity.
  - split; unfold updated_row; simpl; rewrite payload_value_notin; try reflexivity;
      intros Hin; apply Hp2 in Hin; tauto.
Qed.

Lemma upsert_round_trip_witness :
  let T := {| columns := ["jugador_id"; "nombre"]; rows := [[PStr "A"; PStr "Eva"]] |} in
  well_formed T /\ has_col "jugador_id" (columns T) = true
  /\ (forall r, In r (rows T) -> belongs (columns T) r "B" = false)
  /\ (forall k, In k (map fst [("puesto", PStr "Arquero")]) ->
        k <> "jugador_id" /\ k <> "created_at")
  /\ exists T1 T2,
    upsert_jugador T "B" [("nombre", PStr "Ana")] "T1" = Some T1
    /\ upsert_jugador T1 "B" [("puesto", PStr "Arquero")] "T2" = Some T2
    /\ columns T1 = REQUIRED_JUGADORES_COLS
    /\ columns T2 = REQUIRED_JUGADORES_COLS
    /\ rows T1 = app (map (fun r => map (get (columns T) r) REQUIRED_JUGADORES_COLS) (rows T))
                     [map (inserted_row "B" [("nombre", PStr "Ana")] "T1")
                          REQUIRED_JUGADORES_COLS]
    /\ rows T2 = app (map (fun r => map (get (columns T) r) REQUIRED_JUGADORES_COLS) (rows T))
                     [map (updated_row (inserted_row "B" [("nombre", PStr "Ana")] "T1")
                                       [("puesto", PStr "Arquero")] "T2")
                          REQUIRED_JUGADORES_COLS]
    /\ updated_row (inserted_row "B" [("nombre", PStr "Ana")] "T1")
                   [("puesto", PStr "Arquero")] "T2" "jugador_id" = PStr "B"
    /\ updated_row (inserted_row "B" [("nombre", PStr "Ana")] "T1")
                   [("puesto", PStr "Arquero")] "T2" "created_at" = PStr "T1".
Proof.
  intros T.
  assert (Hwf : well_formed T) by (repeat constructor).
  assert (Hn : forall r, In r (rows T) -> belongs (columns T) r "B" = false).
  { intros r Hr. simpl in Hr. destruct Hr as [<-|[]]. reflexivity. }
  assert (Hk : forall k, In k (map fst [("puesto", PStr "Arquero")]) ->
                 k <> "jugador_id" /\ k <> "created_at").
  { intros k Hk. simpl in Hk. destruct Hk as [<-|[]]. split; discriminate. }
  split; [exact Hwf|]. split; [reflexivity|]. split; [exact Hn|]. split; [exact Hk|].
  apply upsert_round_trip; auto.
Defined.

(** C3, where the code departs from the statement: a table lacking the
    required column [nombre] gets NaN, not the empty string, in its
    existing row ([pd.concat] adds the column before the filling loop). *)
Lemma upsert_missing_column_nan :
  exists T1,
    upsert_jugador {| columns := ["jugador_id"]; rows := [[PStr "x"]] |} "a" [] "T1"
      = Some T1
    /\ columns T1 = REQUIRED_JUGADORES_COLS
    /\ get (columns T1) (hd [] (rows T1)) "nombre" = PNaN.
Proof. eexists. split; [reflexivity|]. split; reflexivity. Qed.

End Upsert.

(* ------------------------------------------------------------------ *)
(** ** Weekly entries: the duplicate-week check *)

Module WeeklyFacts.
Import Dates Py Normalize Frame Weekly FrameFacts FrameFacts2 DatesFacts Spec.
Local Open Scope string_scope.

Lemma count_denotes lib df fs p w :
  denotes df fs ->
  count_entries lib df p w = List.length (filter (fun f => row_is_f lib f p w) fs).
Proof.
  unfold denotes, count_entries. intros H.
  induction H as [|r f rs fs [_ Hget] _ IH]; simpl; [reflexivity|].
  unfold row_is at 1, row_is_f at 1. rewrite !Hget.
  destruct (_ && _); simpl; rewrite IH; reflexivity.
Qed.

Lemma existsb_id_map {X} (g : X -> bool) l : existsb (fun b => b) (map g l) = existsb g l.
Proof. induction l; simpl; congruence. Qed.

Lemma existsb_count {X} (g : X -> bool) l :
  existsb g l = true <-> (0 < List.length (filter g l))%nat.
Proof.
  induction l as [|x l IH]; simpl; [split; [discriminate|lia]|].
  destruct (g x); simpl; [split; [lia|reflexivity]|exact IH].
Qed.

Lemma week_exists_denotes lib df fs p w :
  denotes df fs ->
  has_col "jugador_id" (columns df) = true -> has_col "week_start" (columns df) = true ->
  week_exists lib df p w = Some (existsb (fun f => row_is_f lib f p w) fs).
Proof.
  unfold has_col. intros H Hj Hw.
  destruct (index_of "jugador_id" (columns df)) as [i|] eqn:Ei; [|discriminate].
  destruct (index_of "week_start" (columns df)) as [k|] eqn:Ek; [|discriminate].
  unfold week_exists. rewrite (column_denotes _ _ _ _ H Ei), (column_denotes _ _ _ _ H Ek).
  rewrite zip_with_map2, existsb_id_map. reflexivity.
Qed.

Lemma count_app lib fs g p w :
  List.length (filter (fun f => row_is_f lib f p w) (app fs [g]))
  = (List.length (filter (fun f => row_is_f lib f p w) fs)
     + if row_is_f lib g p w then 1 else 0)%nat.
Proof. rewrite filter_app, length_app. simpl. destruct (row_is_f lib g p w); reflexivity. Qed.

(** C2.  Submitting the week [w] of player [p] (a valid week start whose
    week end exists) is answered "duplicate week", saving nothing,
    whenever the table already holds an entry for [(p, w)]; otherwise the
    table is saved with the old rows kept (padded with NaN under the new
    labels) and one new row appended, holding the generated identifier,
    the player, the week, its end [w + 6] and the creation and update
    time.  The new table holds one more entry for [(p, w)] and the same
    number for every other pair, so a table with at most one entry per
    pair keeps that property. *)
Theorem submit_week_no_duplicates (lib : pandas_lib) (df : frame) (p : string) (w : date)
  (f : week_form) (rid now : string) :
  well_formed df ->
  has_col "jugador_id" (columns df) = true ->
  has_col "week_start" (columns df) = true ->
  valid_date w -> w + 6 <= MAXORDINAL ->
  ((0 < count_entries lib df p w)%nat -> submit_week lib df p w f rid now = Some Duplicate)
  /\ (count_entries lib df p w = O ->
      exists df2 extra r_new,
        submit_week lib df p w f rid now = Some (Saved df2)
        /\ columns df2 = app (columns df) extra
        /\ rows df2 = app (map (fun r => app r (map (fun _ => PNaN) extra)) (rows df)) [r_new]
        /\ get (columns df2) r_new "registro_id" = PStr rid
        /\ get (columns df2) r_new "jugador_id" = PStr p
        /\ get (columns df2) r_new "week_start" = PDate w
        /\ get (columns df2) r_new "week_end" = PDate (w + 6)
        /\ get (columns df2) r_new "created_at" = PStr now
        /\ get (columns df2) r_new "updated_at" = PStr now
        /\ (forall p' w', count_entries lib df2 p' w'
              = (count_entries lib df p' w'
                 + if String.eqb p p' && Z.eqb w w' then 1 else 0)%nat)
        /\ ((forall p' w', (count_entries lib df p' w' <= 1)%nat) ->
            forall p' w', (count_entries lib df2 p' w' <= 1)%nat)).
Proof.
  intros Hwf Hj Hw Hv Hmax.
  pose proof (denotes_wf df Hwf) as H0.
  set (fs := map (get (columns df)) (rows df)) in H0.
  assert (Hend : get_week_end_from_start w = Some (w + 6)).
  { apply date_add_in_range. unfold valid_date in Hv. lia. }
  pose proof (week_exists_denotes lib df fs p w H0 Hj Hw) as Hex.
  pose proof (count_denotes lib df fs p w H0) as Hc.
  split.
  - intros Hpos. unfold submit_week. rewrite Hend, Hex.
    replace (existsb _ fs) with true; [reflexivity|].
    symmetry. apply existsb_count. lia.
  - intros Hzero. unfold submit_week. rewrite Hend, Hex.
    replace (existsb _ fs) with false
      by (symmetry; apply Bool.not_true_iff_false; rewrite existsb_count; lia).
    match goal with |- context [concat_row df ?row] => set (nr := row) end.
    set (df2 := concat_row df nr).
    set (extra := filter (fun k => negb (has_col k (columns df))) (map fst nr)).
    exists df2, extra, (map (dict_get nr) (columns df2)).
    assert (Hg : forall c, In c (map fst nr) ->
                 get (columns df2) (map (dict_get nr) (columns df2)) c = dict_get nr c).
    { intros c Hc'. apply get_map_cols_in. apply has_col_in. now apply has_col_concat_row. }
    pose proof (denotes_concat_row df fs nr H0) as H2. fold df2 in H2.
    assert (Hcnt : forall p' w', count_entries lib df2 p' w'
              = (count_entries lib df p' w'
                 + if String.eqb p p' && Z.eqb w w' then 1 else 0)%nat).
    { intros p' w'. rewrite (count_denotes lib df2 _ p' w' H2), count_app,
        (count_denotes lib df fs p' w' H0). reflexivity. }
    split; [reflexivity|]. split; [reflexivity|]. split; [reflexivity|].
    do 6 (split; [rewrite Hg by (simpl; tauto); reflexivity|]).
    split; [exact Hcnt|].
    intros Hle p' w'. rewrite Hcnt. specialize (Hle p' w').
    destruct (String.eqb_spec p p') as [<-|]; destruct (Z.eqb_spec w w') as [<-|]; simpl;
      [rewrite Hc in Hzero |- *; lia | lia | lia | lia].
Qed.

Lemma submit_week_no_duplicates_witness :
  let lib := {| to_datetime := fun _ => None; to_numeric := fun _ => None |} in
  let f := {| f_partidos := 1; f_minutos := 90; f_goles_marcados := 0;
              f_goles_encajados := 2; f_amarillas := 0; f_rojas := 0;
              f_incidencias := "" |} in
  let df0 := {| columns := REQUIRED_SEGUIMIENTO_COLS; rows := [] |} in
  exists df1,
    submit_week lib df0 "X" 738949 f "r1" "T1" = Some (Saved df1)
    /\ count_entries lib df1 "X" 738949 = 1%nat
    /\ submit_week lib df1 "X" 738949 f "r2" "T2" = Some Duplicate.
Proof.
  intros lib f df0.
  assert (Hv : valid_date 738949) by (unfold valid_date, MAXORDINAL; lia).
  assert (Hm : 738949 + 6 <= MAXORDINAL) by (unfold MAXORDINAL; lia).
  destruct (proj2 (submit_week_no_duplicates lib df0 "X" 738949 f "r1" "T1"
                     (Forall_nil _) eq_refl eq_refl Hv Hm) eq_refl)
    as (df1 & extra & r_new & Hs & Hcols & Hrows & _ & _ & _ & _ & _ & _ & Hcnt & _).
  exists df1. split; [exact Hs|].
  assert (H1 : count_entries lib df1 "X" 738949 = 1%nat) by (rewrite Hcnt; reflexivity).
  split; [exact H1|].
  vm_compute in Hs. injection Hs as <-.
  apply (submit_week_no_duplicates lib _ "X" 738949 f "r2" "T2");
    [repeat constructor | reflexivity | reflexivity | exact Hv | exact Hm | ].
  vm_compute. lia.
Defined.

End WeeklyFacts.

(* ------------------------------------------------------------------ *)
(** ** Schema reconciliation *)

Module SheetFacts.
Import Frame FrameFacts Sheet Spec.
Local Open Scope string_scope.

Lemma list_string_eqb_spec a b : list_string_eqb a b = true <-> a = b.
Proof.
  revert b; induction a as [|x a IH]; intros [|y b]; simpl; try (split; congruence).
  rewrite andb_true_iff, String.eqb_eq, IH. split; [intros [-> ->]; reflexivity|].
  intros H; injection H; auto.
Qed.

Lemma positions_from_none n c H : index_of c H = None -> positions_from n c H = [].
Proof.
  revert n; induction H as [|h t IH]; intros n E; simpl in *; [reflexivity|].
  destruct (String.eqb c h); [discriminate|].
  destruct (index_of c t); [discriminate|]. now apply IH.
Qed.

Lemma positions_from_single n c H i :
  (count_occ string_dec H c <= 1)%nat -> index_of c H = Some i ->
  positions_from n c H = [(n + i)%nat].
Proof.
  revert n i; induction H as [|h t IH]; intros n i Hc E; simpl in *; [discriminate|].
  destruct (String.eqb_spec c h) as [->|Hne].
  - injection E as <-. destruct (string_dec h h) as [_|]; [|congruence].
    rewrite positions_from_none; [f_equal; lia|].
    destruct (index_of h t) as [j|] eqn:Et; [|reflexivity]. exfalso.
    apply index_of_some in Et as [Hj Hn].
    assert (count_occ string_dec t h > 0)%nat; [|lia].
    apply count_occ_In. rewrite <- Hn. now apply nth_In.
  - destruct (index_of c t) as [j|] eqn:Et; [|discriminate]. injection E as <-.
    destruct (string_dec h c); [congruence|].
    rewrite (IH (S n) j Hc eq_refl). f_equal. lia.
Qed.

Lemma cells_for_single H r c :
  (count_occ string_dec H c <= 1)%nat ->
  cells_for H r c = [match index_of c H with Some i => nth i r "" | None => "" end].
Proof.
  intros Hc. unfold cells_for. destruct (index_of c H) as [i|] eqn:E.
  - now rewrite (positions_from_single O c H i Hc E).
  - now rewrite positions_from_none.
Qed.

Lemma flat_map_single {A B} (F : A -> list B) (g : A -> B) l :
  (forall x, In x l -> F x = [g x]) -> flat_map F l = map g l.
Proof.
  induction l as [|x l IH]; intros H; simpl; [reflexivity|].
  rewrite H by (left; reflexivity). simpl. f_equal. apply IH. intros y Hy. apply H. now right.
Qed.

(** C1.  A missing or empty worksheet gets the required header [R] as
    its only row; a worksheet whose header is [R] is kept as it is; a
    worksheet with another header [H], in which no required label occurs
    twice, is rewritten as the header [R] followed by its data rows
    reconciled against [R] (the cell under each label of [R] found in [H]
    kept, the empty string under the others, the labels of [H] outside
    [R] dropped), with no data rows when [R] is empty. *)
Theorem reconcile_schema (R H : list string) (data : list (list string)) :
  _get_or_create_worksheet None R = [R]
  /\ _get_or_create_worksheet (Some []) R = [R]
  /\ (H = R -> _get_or_create_worksheet (Some (H :: data)) R = R :: data)
  /\ (H <> R -> (forall c, In c R -> (count_occ string_dec H c <= 1)%nat) ->
      _get_or_create_worksheet (Some (H :: data)) R
      = R :: match R with [] => [] | _ => map (reconciled_row H R) data end).
Proof.
  split; [reflexivity|]. split; [reflexivity|]. split.
  - intros <-. simpl. now rewrite (proj2 (list_string_eqb_spec H H) eq_refl).
  - intros Hne Hc. simpl.
    destruct (list_string_eqb H R) eqn:E; [apply list_string_eqb_spec in E; congruence|].
    assert (Hrow : forall r, flat_map (cells_for H r) R = reconciled_row H R r).
    { intros r. apply flat_map_single. intros c Hin. apply cells_for_single. auto. }
    destruct data as [|r data]; simpl; [destruct R; reflexivity|].
    destruct R as [|c R]; [reflexivity|]. rewrite !Hrow.
    f_equal. f_equal. apply map_ext. intros r'. apply Hrow.
Qed.

Lemma reconcile_schema_witness :
  (["a"; "x"] <> ["a"; "b"]
   /\ (forall c, In c ["a"; "b"] -> (count_occ string_dec ["a"; "x"] c <= 1)%nat))
  /\ _get_or_create_worksheet (Some [["a"; "x"]; ["1"; "2"]]) ["a"; "b"]
     = [["a"; "b"]; reconciled_row ["a"; "x"] ["a"; "b"] ["1"; "2"]]
  /\ reconciled_row ["a"; "x"] ["a"; "b"] ["1"; "2"] = ["1"; ""].
Proof.
  assert (Hne : ["a"; "x"] <> ["a"; "b"]) by discriminate.
  assert (Hc : forall c, In c ["a"; "b"] -> (count_occ string_dec ["a"; "x"] c <= 1)%nat).
  { intros c [<-|[<-|[]]]; simpl; lia. }
  split; [split; assumption|]. split; [|reflexivity].
  apply (reconcile_schema ["a"; "b"] ["a"; "x"] [["1"; "2"]]); assumption.
Defined.

(** C1, where the statement fails: a header naming a required label
    twice gives a data row of three cells under a header of two labels,
    the cell under ["b"] (absent from the header) being ["2"], not the
    empty string. *)
Lemma reconcile_duplicate_header :
  _get_or_create_worksheet (Some [["a"; "a"]; ["1"; "2"]]) ["a"; "b"]
  = [["a"; "b"]; ["1"; "2"; ""]].
Proof. reflexivity. Qed.

End SheetFacts.

(* ------------------------------------------------------------------ *)
(** ** Normalization is idempotent *)

Module NormalizeFacts.
Import Dates Py Normalize Frame FrameFacts Spec.
Local Open Scope string_scope.

Lemma list_set_oob {A} i (v : A) l : (List.length l <= i)%nat -> list_set i v l = l.
Proof.
  revert i; induction l as [|x l IH]; intros [|i] H; simpl in *; try lia; auto.
  f_equal. apply IH. lia.
Qed.

Lemma list_set_twice {A} i (v w : A) l : list_set i v (list_set i w l) = list_set i v l.
Proof. revert i; induction l as [|x l IH]; intros [|i]; simpl; f_equal; auto. Qed.

Lemma nth_list_set_ne {A} i j (v d : A) l : i <> j -> nth i (list_set j v l) d = nth i l d.
Proof.
  revert i j; induction l as [|x l IH]; intros i j H; [destruct i, j; reflexivity|].
  destruct i, j; simpl; try congruence; try reflexivity. apply IH. congruence.
Qed.

Lemma list_set_comm {A} i j (v w : A) l :
  i <> j -> list_set i v (list_set j w l) = list_set j w (list_set i v l).
Proof.
  revert i j; induction l as [|x l IH]; intros i j H; [destruct i, j; reflexivity|].
  destruct i, j; simpl; try congruence; try reflexivity. f_equal. apply IH. congruence.
Qed.

Lemma apply_col_columns f c df : columns (apply_col f c df) = columns df.
Proof. unfold apply_col. destruct (index_of c (columns df)); reflexivity. Qed.

Lemma apply_col_idem f c df :
  (forall x, f (f x) = f x) -> apply_col f c (apply_col f c df) = apply_col f c df.
Proof.
  intros Hf. unfold apply_col. destruct (index_of c (columns df)) as [i|] eqn:E; simpl;
    rewrite ?E; [|reflexivity].
  f_equal. rewrite map_map. apply map_ext. intros r.
  destruct (Nat.lt_ge_cases i (List.length r)) as [Hi|Hi].
  - rewrite nth_list_set by exact Hi. rewrite Nat.eqb_refl, Hf. apply list_set_twice.
  - rewrite !list_set_oob by (rewrite ?length_list_set; exact Hi). reflexivity.
Qed.

Lemma apply_col_comm f g c c' df :
  c <> c' -> apply_col f c (apply_col g c' df) = apply_col g c' (apply_col f c df).
Proof.
  intros Hne. unfold apply_col.
  destruct (index_of c' (columns df)) as [j|] eqn:Ej;
    destruct (index_of c (columns df)) as [i|] eqn:Ei; simpl; rewrite ?Ei, ?Ej; try reflexivity.
  assert (Hij : i <> j) by (intros ->; apply Hne; exact (index_of_inj _ _ _ _ Ei Ej)).
  f_equal. rewrite !map_map. apply map_ext. intros r.
  rewrite !nth_list_set_ne by congruence. apply list_set_comm. exact Hij.
Qed.

Lemma apply_all_columns L df : columns (apply_all L df) = columns df.
Proof.
  unfold apply_all. revert df; induction L as [|fc L IH]; intros df; simpl; [reflexivity|].
  rewrite IH. apply apply_col_columns.
Qed.

Lemma apply_all_cons fc L df :
  apply_all (fc :: L) df = apply_all L (apply_col (fst fc) (snd fc) df).
Proof. reflexivity. Qed.

Lemma apply_all_comm L f c df :
  ~ In c (map snd L) -> apply_all L (apply_col f c df) = apply_col f c (apply_all L df).
Proof.
  unfold apply_all. revert df; induction L as [|[g c'] L IH]; intros df H; simpl in *;
    [reflexivity|].
  rewrite apply_col_comm by tauto. apply IH. tauto.
Qed.

Lemma apply_all_idem L df :
  NoDup (map snd L) -> (forall fc x, In fc L -> fst fc (fst fc x) = fst fc x) ->
  apply_all L (apply_all L df) = apply_all L df.
Proof.
  revert df; induction L as [|[f c] L IH]; intros df Hnd Hf; [reflexivity|].
  simpl in Hnd. inversion Hnd as [|? ? Hnin Hnd']; subst.
  rewrite !apply_all_cons. cbn [fst snd].
  rewrite (apply_all_comm L f c df Hnin).
  rewrite apply_col_idem by (intros x; apply (Hf (f, c) x); now left).
  rewrite (apply_all_comm L f c _ Hnin), IH; [reflexivity|exact Hnd'|].
  intros fc x Hin. apply Hf. now right.
Qed.

Lemma apply_all_no_rows L cols : apply_all L {| columns := cols; rows := [] |}
                                 = {| columns := cols; rows := [] |}.
Proof.
  unfold apply_all. induction L as [|[f c] L IH]; simpl; [reflexivity|].
  unfold apply_col at 2. simpl. destruct (index_of c cols); exact IH.
Qed.

Lemma apply_all_rows_nil L df : rows df = [] -> rows (apply_all L df) = [].
Proof.
  unfold apply_all. revert df; induction L as [|[f c] L IH]; intros df H; simpl;
    [exact H|].
  apply IH. unfold apply_col. destruct (index_of c (columns df)); simpl; rewrite ?H; auto.
Qed.

Lemma apply_all_rows_cons L df r rs :
  rows df = r :: rs -> exists r' rs', rows (apply_all L df) = r' :: rs'.
Proof.
  unfold apply_all. revert df r rs; induction L as [|[f c] L IH]; intros df r rs H; simpl;
    [eauto|].
  unfold apply_col. destruct (index_of c (columns df)); simpl; [|eauto].
  eapply IH. simpl. rewrite H. reflexivity.
Qed.

(** The [df.empty] replacement at the head of each [normalizar_*]. *)
Lemma empty_replace_fixed L REQ df :
  let X := if empty df then {| columns := REQ; rows := [] |} else df in
  (if empty (apply_all L X) then {| columns := REQ; rows := [] |} else apply_all L X)
  = apply_all L X.
Proof.
  intros X. destruct (empty df) eqn:E.
  - subst X. rewrite !apply_all_no_rows. destruct REQ; reflexivity.
  - subst X. unfold empty in *. rewrite apply_all_columns.
    destruct (columns df) as [|c cs]; [discriminate|].
    destruct (rows df) as [|r rs] eqn:Er; [discriminate|].
    destruct (apply_all_rows_cons L df r rs Er) as (r' & rs' & ->). reflexivity.
Qed.

Lemma parse_date_form lib x :
  _parse_date_safe lib x = PNaT \/ exists d, _parse_date_safe lib x = PDate d.
Proof.
  destruct x; simpl; eauto;
    repeat match goal with |- context [if ?b then _ else _] => destruct b end; eauto;
    repeat match goal with |- context [match ?m with _ => _ end] => destruct m end; eauto.
Qed.

Lemma parse_date_idem lib x : _parse_date_safe lib (_parse_date_safe lib x) = _parse_date_safe lib x.
Proof. destruct (parse_date_form lib x) as [->|[d ->]]; reflexivity. Qed.

Lemma parse_dt_form lib x : is_datetime (_parse_dt_safe lib x) = true.
Proof.
  destruct x; simpl; auto;
    repeat match goal with |- context [if ?b then _ else _] => destruct b eqn:? end; auto;
    repeat match goal with |- context [match ?m with _ => _ end] => destruct m end; auto.
Qed.

Lemma parse_dt_fixed lib v : is_datetime v = true -> _parse_dt_safe lib v = v.
Proof. destruct v; simpl; congruence. Qed.

Lemma parse_dt_idem lib x : _parse_dt_safe lib (_parse_dt_safe lib x) = _parse_dt_safe lib x.
Proof. apply parse_dt_fixed, parse_dt_form. Qed.

Lemma coerce_bool_fixed b : coerce_bool (PBool b) = PBool b.
Proof. destruct b; reflexivity. Qed.

Lemma coerce_bool_idem x : coerce_bool (coerce_bool x) = coerce_bool x.
Proof. unfold coerce_bool at 2. apply coerce_bool_fixed. Qed.

Lemma coerce_int_idem lib x : coerce_int lib (coerce_int lib x) = coerce_int lib x.
Proof. reflexivity. Qed.

Lemma normalizar_jugadores_all lib df :
  normalizar_jugadores lib df
  = apply_all [(_parse_date_safe lib, "fecha_nacimiento"); (_parse_date_safe lib, "fecha_retorno");
               (_parse_date_safe lib, "fin_contrato_aaaj"); (coerce_bool, "opcion_compra");
               (coerce_bool, "posibilidad_repesca")]
      (if empty df then {| columns := REQUIRED_JUGADORES_COLS; rows := [] |} else df).
Proof. reflexivity. Qed.

Lemma normalizar_seguimiento_all lib df :
  normalizar_seguimiento lib df
  = apply_all [(_parse_date_safe lib, "week_start"); (_parse_date_safe lib, "week_end");
               (coerce_int lib, "partidos"); (coerce_int lib, "minutos");
               (coerce_int lib, "goles_marcados"); (coerce_int lib, "goles_encajados");
               (coerce_int lib, "amarillas"); (coerce_int lib, "rojas")]
      (if empty df then {| columns := REQUIRED_SEGUIMIENTO_COLS; rows := [] |} else df).
Proof. reflexivity. Qed.

Lemma normalizar_reportes_all lib df :
  normalizar_reportes lib df
  = apply_all [(_parse_date_safe lib, "fecha_reporte"); (_parse_dt_safe lib, "fecha_creacion")]
      (if empty df then {| columns := REQUIRED_REPORTES_COLS; rows := [] |} else df).
Proof. reflexivity. Qed.

Ltac idem_tac lib :=
  match goal with
  | |- apply_all ?L (if empty (apply_all ?L ?X) then ?E else _) = _ =>
      rewrite (empty_replace_fixed L _ _); apply apply_all_idem;
      [ repeat constructor; simpl; intuition discriminate
      | intros fc x Hin; simpl in Hin;
        repeat (destruct Hin as [<-|Hin]; [simpl; first [ apply parse_date_idem
                                                        | apply parse_dt_idem
                                                        | apply coerce_bool_idem
                                                        | apply coerce_int_idem ]|]);
        destruct Hin ]
  end.

(** C9.  Normalizing an already normalized player, weekly-log or report
    table gives the same table; in particular a native date parses to
    itself and a boolean coerces to itself. *)
Theorem normalization_idempotent (lib : pandas_lib) :
  (forall df, normalizar_jugadores lib (normalizar_jugadores lib df)
              = normalizar_jugadores lib df)
  /\ (forall df, normalizar_seguimiento lib (normalizar_seguimiento lib df)
                 = normalizar_seguimiento lib df)
  /\ (forall df, normalizar_reportes lib (normalizar_reportes lib df)
                 = normalizar_reportes lib df)
  /\ (forall d, _parse_date_safe lib (PDate d) = PDate d)
  /\ (forall b, coerce_bool (PBool b) = PBool b).
Proof.
  split; [|split; [|split; [|split]]].
  - intros df. rewrite !normalizar_jugadores_all. idem_tac lib.
  - intros df. rewrite !normalizar_seguimiento_all. idem_tac lib.
  - intros df. rewrite !normalizar_reportes_all. idem_tac lib.
  - reflexivity.
  - exact coerce_bool_fixed.
Qed.

End NormalizeFacts.


(* ------------------------------------------------------------------ *)
(** ** Date parsing *)

Module DateParseFacts.
Import Dates Py Strptime Normalize DateForms NormalizeFacts.
Local Open Scope string_scope.







































End DateParseFacts.

(* ------------------------------------------------------------------ *)
(** ** The accumulated table *)

Module AcumFacts.
Import Dates Acum AcumSpec.
Local Open Scope string_scope.

Lemma sum_by_zsum f g : sum_by f g = zsum (map f g).
Proof. induction g as [|e g IH]; simpl; [reflexivity|]. now rewrite IH. Qed.

Lemma latest_fold l :
  fold_right (fun e acc => max_date e acc) None l = latest l.
Proof.
  unfold latest. induction l as [|o l IH]; [reflexivity|].
  simpl. rewrite IH.
  destruct o as [x|]; simpl; [|reflexivity].
  destruct (flat_map _ l) as [|y r]; simpl; [reflexivity|].
  f_equal. clear. revert x y. induction r as [|z r IH]; intros a b; simpl; [lia|].
  rewrite Z.max_assoc, (Z.max_comm a z), <- Z.max_assoc, IH.
  rewrite Z.max_assoc, (Z.max_comm z b), <- Z.max_assoc. reflexivity.
Qed.

Lemma latest_map_fold es :
  fold_right (fun e acc => max_date (e_week_end e) acc) None es = latest (map e_week_end es).
Proof.
  rewrite <- latest_fold. induction es as [|e es IH]; simpl; [reflexivity|]. now rewrite IH.
Qed.

Lemma find_groupby (f : string -> agg) k (K : list string) :
  (forall k', a_jugador_id (f k') = k') ->
  find (fun a => String.eqb (a_jugador_id a) k) (map f K)
  = if in_dec string_dec k K then Some (f k) else None.
Proof.
  intros Hf. induction K as [|k' K IH]; simpl; [reflexivity|].
  rewrite Hf. destruct (String.eqb_spec k' k) as [<-|Hne].
  - destruct (string_dec k' k') as [_|]; [reflexivity|congruence].
  - rewrite IH. destruct (in_dec string_dec k K), (string_dec k' k); try congruence; tauto.
Qed.

Lemma in_ids_group es k :
  In k (map e_jugador_id es)
  <-> filter (fun e => String.eqb (e_jugador_id e) k) es <> [].
Proof.
  induction es as [|e es IH]; simpl; [tauto|].
  destruct (String.eqb_spec (e_jugador_id e) k) as [E|E].
  - split; [discriminate|auto].
  - rewrite <- IH. split; [intros [H|H]; [congruence|exact H]|auto].
Qed.

(** The aggregates of key [k] when its group does not raise. *)
Lemma agg_group_some es k a :
  agg_group es k = Some a
  -> a = agg_fields (group_of es k) k
           (fold_right (fun e acc => max_date (e_week_end e) acc) None (group_of es k)).
Proof.
  unfold agg_group, week_max.
  destruct (_ && _); simpl; [discriminate|]. congruence.
Qed.

Lemma all_some_map {A B} (h : A -> option B) (f : A -> B) K aggs :
  (forall k a, h k = Some a -> a = f k) ->
  all_some (map h K) = Some aggs -> aggs = map f K.
Proof.
  intros Hh. revert aggs. induction K as [|k K IH]; intros aggs; simpl.
  - congruence.
  - destruct (h k) as [a|] eqn:E; [|discriminate].
    destruct (all_some (map h K)) as [r|]; simpl; [|discriminate].
    intros H. injection H as <-. rewrite (Hh _ _ E), (IH r eq_refl). reflexivity.
Qed.



Lemma all_some_in {A B} (h : A -> option B) K aggs k :
  all_some (map h K) = Some aggs -> In k K -> h k <> None.
Proof.
  revert aggs. induction K as [|k' K IH]; intros aggs H Hk; simpl in *; [contradiction|].
  destruct (h k') eqn:E; [|discriminate].
  destruct (all_some (map h K)) eqn:E'; simpl in H; [|discriminate].
  destruct Hk as [<-|Hk]; [congruence|]. now apply (IH l).
Qed.

(** When no group raises, no player's entries mix week ends. *)
Lemma groupby_some_consistent es aggs :
  groupby_agg es = Some aggs -> week_end_consistent es.
Proof.
  unfold groupby_agg. intros H e1 e2 I1 I2 Hk W1.
  assert (Hin : In (e_jugador_id e1) (nodup string_dec (map e_jugador_id es)))
    by (apply nodup_In, in_map, I1).
  pose proof (all_some_in _ _ _ _ H Hin) as Hs.
  unfold agg_group, week_max in Hs.
  destruct (e_week_end e2) as [d|] eqn:W2; [|reflexivity]. exfalso. apply Hs.
  assert (G1 : In e1 (group_of es (e_jugador_id e1)))
    by (apply filter_In; split; [exact I1|apply String.eqb_refl]).
  assert (G2 : In e2 (group_of es (e_jugador_id e1)))
    by (apply filter_In; split; [exact I2|rewrite Hk; apply String.eqb_refl]).
  assert (X1 : existsb is_nat (group_of es (e_jugador_id e1)) = true)
    by (apply existsb_exists; exists e1; split; [exact G1|unfold is_nat; now rewrite W1]).
  assert (X2 : existsb (fun e => negb (is_nat e)) (group_of es (e_jugador_id e1)) = true)
    by (apply existsb_exists; exists e2; split; [exact G2|unfold is_nat; now rewrite W2]).
  rewrite X1, X2. reflexivity.
Qed.

Lemma to_view_player_row es aggs p :
  groupby_agg es = Some aggs ->
  to_view (p, find (fun a => String.eqb (a_jugador_id a) (p_jugador_id p)) aggs)
  = player_row es p.
Proof.
  unfold groupby_agg. intros H.
  apply (all_some_map _ (fun k => agg_fields (group_of es k) k
           (fold_right (fun e acc => max_date (e_week_end e) acc) None (group_of es k))))
    in H; [|apply agg_group_some].
  subst aggs. rewrite find_groupby; [|reflexivity].
  unfold player_row.
  destruct (in_dec string_dec (p_jugador_id p) (nodup string_dec (map e_jugador_id es)))
    as [Hin|Hin]; rewrite nodup_In in Hin; rewrite in_ids_group in Hin.
  - destruct (filter _ es) eqn:G; [congruence|].
    unfold to_view, agg_fields, group_of, minutos_or_zero; simpl. rewrite G.
    rewrite !sum_by_zsum, latest_map_fold. reflexivity.
  - destruct (filter _ es) eqn:G; [reflexivity|].
    exfalso. apply Hin. discriminate.
Qed.


Lemma view_ge_before a b : view_ge a b = true -> presented_before a b.
Proof.
  unfold view_ge, presented_before, partidos_ge.
  intros H. apply orb_true_iff in H as [H|H].
  - left. lia.
  - apply andb_true_iff in H as [H1 H2]. right. split; [lia|].
    destruct (v_partidos_total a), (v_partidos_total b); try discriminate; auto. lia.
Qed.

Lemma view_ge_total a b : view_ge a b = false -> presented_before b a.
Proof.
  unfold view_ge, presented_before, partidos_ge.
  intros H. apply orb_false_iff in H as [H1 H2].
  destruct (Z.eqb_spec (v_minutos_total a) (v_minutos_total b)) as [E|E].
  - right. split; [lia|]. simpl in H2.
    destruct (v_partidos_total a), (v_partidos_total b); try discriminate; auto. lia.
  - left. lia.
Qed.

Lemma insert_view_hd y x r :
  HdRel presented_before y r -> presented_before y x ->
  HdRel presented_before y (insert_view x r).
Proof.
  intros Hr Hx. destruct r as [|z r]; simpl; [now constructor|].
  destruct (view_ge x z); constructor; [exact Hx|]. now inversion Hr.
Qed.

Lemma insert_view_sorted x l :
  Sorted presented_before l -> Sorted presented_before (insert_view x l).
Proof.
  induction l as [|y r IH]; intros H; simpl.
  - now repeat constructor.
  - inversion H as [|? ? Hs Hh]; subst.
    destruct (view_ge x y) eqn:E.
    + constructor; [exact H|]. constructor. now apply view_ge_before.
    + constructor; [now apply IH|]. apply insert_view_hd; [exact Hh|]. now apply view_ge_total.
Qed.

Lemma insert_view_perm x l : Permutation (insert_view x l) (x :: l).
Proof.
  induction l as [|y r IH]; simpl; [reflexivity|].
  destruct (view_ge x y); [reflexivity|].
  rewrite IH. apply perm_swap.
Qed.

Lemma sort_values_sorted l : Sorted presented_before (sort_values l).
Proof.
  induction l as [|x l IH]; simpl; [constructor|]. now apply insert_view_sorted.
Qed.

Lemma sort_values_perm l : Permutation (sort_values l) l.
Proof.
  induction l as [|x l IH]; simpl; [reflexivity|].
  rewrite insert_view_perm. now apply perm_skip.
Qed.




End AcumFacts.

(* ------------------------------------------------------------------ *)
(** ** Week starts *)

Module WeekFacts.
Import Dates DatesFacts.

(** Two valid dates get the same week start exactly when the second lies in
    the Monday-to-Sunday week of the first. *)
Theorem same_week_start (d e : date) :
  valid_date d -> valid_date e ->
  (get_week_start e = get_week_start d <-> d - weekday d <= e <= d - weekday d + 6).
Proof.
  intros Hd He.
  destruct (get_week_start_spec d Hd) as (Gd & Md & _ & _).
  destruct (get_week_start_spec e He) as (Ge & Me & _ & Le).
  rewrite Gd, Ge. unfold weekday in *.
  pose proof (Z.mod_pos_bound (d + 6) 7 ltac:(lia)).
  pose proof (Z.mod_pos_bound (e + 6) 7 ltac:(lia)).
  pose proof (Z.div_mod (d + 6) 7 ltac:(lia)).
  pose proof (Z.div_mod (e + 6) 7 ltac:(lia)).
  pose proof (Z.div_mod (d - (d + 6) mod 7 + 6) 7 ltac:(lia)).
  pose proof (Z.div_mod (e - (e + 6) mod 7 + 6) 7 ltac:(lia)).
  rewrite Md in *. rewrite Me in *.
  split.
  - intros Heq. injection Heq as Heq. lia.
  - intros Hin. f_equal.
    (* both week starts are multiples-of-7 shifts within distance 6 *)
    assert (A : (d - (d + 6) mod 7 + 6) / 7 = (e - (e + 6) mod 7 + 6) / 7) by nia.
    lia.
Qed.

Lemma same_week_start_witness :
  valid_date 738000 /\ valid_date 738003
  /\ get_week_start 738003 = get_week_start 738000.
Proof.
  assert (H1 : valid_date 738000) by (unfold valid_date, MAXORDINAL; lia).
  assert (H2 : valid_date 738003) by (unfold valid_date, MAXORDINAL; lia).
  split; [exact H1|]. split; [exact H2|].
  apply (proj2 (same_week_start 738000 738003 H1 H2)). unfold weekday. simpl. lia.
Defined.

End WeekFacts.

(* ------------------------------------------------------------------ *)
(** ** Worksheet reconciliation, again *)

Module SheetIdem.
Import Frame Sheet SheetFacts.

(** Reconciling a worksheet that [_get_or_create_worksheet] has already
    reconciled against the same columns changes nothing. *)
Theorem reconcile_idempotent (ws : option (list (list string))) (cols : list string) :
  _get_or_create_worksheet (Some (_get_or_create_worksheet ws cols)) cols
  = _get_or_create_worksheet ws cols.
Proof.
  assert (Hc : forall data, _get_or_create_worksheet (Some (cols :: data)) cols = cols :: data).
  { intros data. simpl. now rewrite (proj2 (list_string_eqb_spec cols cols) eq_refl). }
  destruct ws as [[|h data]|]; simpl; try apply Hc.
  destruct (list_string_eqb h cols) eqn:E.
  - simpl. now rewrite E.
  - destruct (map _ data), cols; apply Hc.
Qed.

End SheetIdem.

(* ------------------------------------------------------------------ *)
(** ** Hard delete, repeated and reordered *)

Module DeleteFacts.
Import Py Frame.
Local Open Scope string_scope.

Lemma filter_twice {A} (f g : A -> bool) l :
  filter f (filter g l) = filter g (filter f l).
Proof.
  induction l as [|x l IH]; simpl; [reflexivity|].
  destruct (g x) eqn:Eg, (f x) eqn:Ef; simpl; rewrite ?Eg, ?Ef, IH; reflexivity.
Qed.

Lemma filter_idem {A} (f : A -> bool) l : filter f (filter f l) = filter f l.
Proof.
  induction l as [|x l IH]; simpl; [reflexivity|].
  destruct (f x) eqn:E; simpl; rewrite ?E, IH; reflexivity.
Qed.

Lemma drop_player_cols df y df' :
  drop_player df y = Some df' -> columns df' = columns df.
Proof.
  unfold drop_player. destruct (index_of _ _); [|discriminate]. now intros [= <-].
Qed.

Lemma drop_player_comm df y1 y2 d1 d2 :
  drop_player df y1 = Some d1 -> drop_player df y2 = Some d2 ->
  drop_player d1 y2 = drop_player d2 y1.
Proof.
  unfold drop_player. destruct (index_of "jugador_id" (columns df)) as [i|] eqn:E; [|discriminate].
  intros [= <-] [= <-]. simpl. rewrite E. now rewrite filter_twice.
Qed.

Lemma drop_player_idem df y d :
  drop_player df y = Some d -> drop_player d y = Some d.
Proof.
  unfold drop_player. destruct (index_of "jugador_id" (columns df)) as [i|] eqn:E; [|discriminate].
  intros [= <-]. simpl. rewrite E. now rewrite filter_idem.
Qed.

(** Hard-deleting a player a second time changes nothing, and
    hard-deleting two players gives the same three tables in either order. *)
Theorem hard_delete_idempotent_comm df_j df_s df_r y1 y2 j1 s1 r1 j2 s2 r2 :
  eliminar_jugador_hard df_j df_s df_r y1 = Some (j1, s1, r1) ->
  eliminar_jugador_hard df_j df_s df_r y2 = Some (j2, s2, r2) ->
  eliminar_jugador_hard j1 s1 r1 y1 = Some (j1, s1, r1)
  /\ exists t, eliminar_jugador_hard j1 s1 r1 y2 = Some t
               /\ eliminar_jugador_hard j2 s2 r2 y1 = Some t.
Proof.
  unfold eliminar_jugador_hard.
  destruct (drop_player df_j y1) as [a1|] eqn:A1; [|discriminate].
  destruct (drop_player df_s y1) as [b1|] eqn:B1; [|discriminate].
  destruct (drop_player df_r y1) as [c1|] eqn:C1; [|discriminate].
  intros [= <- <- <-].
  destruct (drop_player df_j y2) as [a2|] eqn:A2; [|discriminate].
  destruct (drop_player df_s y2) as [b2|] eqn:B2; [|discriminate].
  destruct (drop_player df_r y2) as [c2|] eqn:C2; [|discriminate].
  intros [= <- <- <-].
  rewrite (drop_player_idem _ _ _ A1), (drop_player_idem _ _ _ B1), (drop_player_idem _ _ _ C1).
  split; [reflexivity|].
  rewrite (drop_player_comm _ _ _ _ _ A1 A2), (drop_player_comm _ _ _ _ _ B1 B2),
          (drop_player_comm _ _ _ _ _ C1 C2).
  assert (G : forall df y y' d d', drop_player df y = Some d -> drop_player df y' = Some d' ->
              exists e, drop_player d' y = Some e).
  { intros df y y' d d' H H'. unfold drop_player in *.
    destruct (index_of "jugador_id" (columns df)) eqn:E; [|discriminate].
    injection H' as <-. simpl. rewrite E. eauto. }
  destruct (G _ _ _ _ _ A1 A2) as [e1 ->], (G _ _ _ _ _ B1 B2) as [e2 ->],
           (G _ _ _ _ _ C1 C2) as [e3 ->].
  eexists. split; reflexivity.
Qed.

Lemma hard_delete_idempotent_comm_witness :
  let t := {| columns := ["jugador_id"; "nombre"];
              rows := [[PStr "A"; PStr "Ana"]; [PStr "B"; PStr "Beto"]] |} in
  exists j1 s1 r1 j2 s2 r2,
    eliminar_jugador_hard t t t "A" = Some (j1, s1, r1)
    /\ eliminar_jugador_hard t t t "B" = Some (j2, s2, r2)
    /\ eliminar_jugador_hard j1 s1 r1 "A" = Some (j1, s1, r1)
    /\ exists u, eliminar_jugador_hard j1 s1 r1 "B" = Some u
                 /\ eliminar_jugador_hard j2 s2 r2 "A" = Some u.
Proof.
  intros t. do 6 eexists. split; [reflexivity|]. split; [reflexivity|].
  apply (hard_delete_idempotent_comm t t t "A" "B"); reflexivity.
Defined.

End DeleteFacts.

(* ------------------------------------------------------------------ *)
(** ** Shape of normalization *)

Module NormalizeShape.
Import Py Normalize Frame Spec NormalizeFacts.
Local Open Scope string_scope.

Lemma apply_all_rows_length L df :
  List.length (rows (apply_all L df)) = List.length (rows df).
Proof.
  unfold apply_all. revert df; induction L as [|[f c] L IH]; intros df; simpl; [reflexivity|].
  rewrite IH. unfold apply_col. destruct (index_of c (columns df)); simpl; [|reflexivity].
  apply length_map.
Qed.

Lemma apply_all_wf L df : well_formed df -> well_formed (apply_all L df).
Proof.
  unfold apply_all. revert df; induction L as [|[f c] L IH]; intros df H; simpl; [exact H|].
  apply IH. unfold apply_col. destruct (index_of c (columns df)) eqn:E; simpl; [|exact H].
  unfold well_formed in *. simpl. apply Forall_map. eapply Forall_impl; [|exact H].
  intros r Hr. simpl. rewrite FrameFacts.length_list_set. exact Hr.
Qed.

(** The three [normalizar_*] functions keep the columns and the number of
    rows of a non-empty table (an empty one becomes the required columns with
    no rows), and keep every row as wide as the header. *)
Theorem normalizar_shape lib df :
  let sh (req : list string) (d : frame) :=
    columns d = (if empty df then req else columns df)
    /\ List.length (rows d) = (if empty df then O else List.length (rows df))
    /\ (well_formed df -> well_formed d) in
  sh REQUIRED_JUGADORES_COLS (normalizar_jugadores lib df)
  /\ sh REQUIRED_SEGUIMIENTO_COLS (normalizar_seguimiento lib df)
  /\ sh REQUIRED_REPORTES_COLS (normalizar_reportes lib df).
Proof.
  intros sh. unfold sh.
  rewrite normalizar_jugadores_all, normalizar_seguimiento_all, normalizar_reportes_all.
  rewrite !apply_all_columns, !apply_all_rows_length.
  destruct (empty df); repeat split; try reflexivity;
    intros H; apply apply_all_wf; (exact H || (unfold well_formed; simpl; constructor)).
Qed.

Lemma normalizar_shape_witness :
  let lib := {| to_datetime := fun _ => None; to_numeric := fun _ => None |} in
  let df := {| columns := ["jugador_id"; "opcion_compra"]; rows := [[PStr "A"; PStr "si"]] |} in
  well_formed df
  /\ columns (normalizar_jugadores lib df) = ["jugador_id"; "opcion_compra"]
  /\ List.length (rows (normalizar_jugadores lib df)) = 1%nat
  /\ well_formed (normalizar_jugadores lib df).
Proof.
  intros lib df.
  assert (Hwf : well_formed df) by (repeat constructor).
  destruct (normalizar_shape lib df) as ((Hc & Hl & Hw) & _).
  split; [exact Hwf|]. split; [exact Hc|]. split; [exact Hl|]. exact (Hw Hwf).
Defined.

End NormalizeShape.

(* ------------------------------------------------------------------ *)
(** ** Filters of the accumulated table *)

Module FilterFacts.
Import Acum AcumSpec AcumFacts FilterDefs.
Local Open Scope string_scope.

Lemma filter_map_comm {A B} (f : B -> bool) (h : A -> B) l :
  filter f (map h l) = map h (filter (fun x => f (h x)) l).
Proof. induction l as [|x l IH]; simpl; [reflexivity|]. destruct (f (h x)); simpl; now rewrite IH. Qed.

Lemma filter_and {A} (f g : A -> bool) l :
  filter f (filter g l) = filter (fun x => g x && f x) l.
Proof.
  induction l as [|x l IH]; simpl; [reflexivity|].
  destruct (g x); simpl; [destruct (f x)|]; simpl; now rewrite IH.
Qed.

Lemma isin_filter_eq sel f l :
  isin_filter sel f l = filter (fun pa => selected sel (f (fst pa))) l.
Proof.
  destruct sel; simpl; [|reflexivity].
  induction l as [|x l IH]; simpl; [reflexivity|]. now rewrite <- IH.
Qed.

(** When the accumulated table is shown, there were entries, no player's
    entries mix a known week end with a missing one, and the table shows
    one row per player that passes all the page's filters (an empty
    multiselect keeps every player; the minutes box keeps players with
    positive total minutes), and no other row, in presentation order. *)
Theorem tabla_acumulada_filters es players estados puestos paises solo_con_min v :
  tabla_acumulada es players estados puestos paises solo_con_min = Shown v ->
  es <> [] /\ week_end_consistent es
  /\ Permutation v (map (player_row es)
                      (filter (passes es estados puestos paises solo_con_min) players))
  /\ Sorted presented_before v.
Proof.
  unfold tabla_acumulada. destruct es as [|e es']; [discriminate|].
  set (es := e :: es').
  destruct (groupby_agg es) as [aggs|] eqn:G; [|discriminate].
  intros H. injection H as <-.
  split; [discriminate|]. split; [now apply (groupby_some_consistent es aggs)|].
  split; [|apply sort_values_sorted].
  rewrite sort_values_perm.
  set (pair := fun p : player =>
         (p, find (fun a => String.eqb (a_jugador_id a) (p_jugador_id p)) aggs)).
  assert (Hm : merge_left players aggs = map pair players) by reflexivity.
  assert (Hv : forall p, to_view (pair p) = player_row es p)
    by (intros; now apply to_view_player_row).
  assert (Hs : forall l : list (player * option agg),
             (if solo_con_min then filter (fun pa => (0 <? minutos_or_zero (snd pa))%Z) l else l)
             = filter (fun pa => negb solo_con_min || (0 <? minutos_or_zero (snd pa))%Z) l).
  { intros l. destruct solo_con_min; simpl; [reflexivity|].
    induction l as [|x l IH]; simpl; [reflexivity|]. now rewrite <- IH. }
  rewrite Hm, !isin_filter_eq, Hs, !filter_map_comm, !filter_and, map_map.
  rewrite (map_ext _ _ Hv).
  erewrite (filter_ext _ (passes es estados puestos paises solo_con_min)); [reflexivity|].
  intros p. unfold passes. rewrite <- (Hv p). simpl. now rewrite !andb_assoc.
Qed.

Lemma tabla_acumulada_filters_witness :
  let ana := {| p_jugador_id := "J1"; p_nombre := "Ana"; p_estado := "Activo";
                p_puesto := "Arquero"; p_pais_prestamo := "" |} in
  let beto := {| p_jugador_id := "J2"; p_nombre := "Beto"; p_estado := "Activo";
                 p_puesto := "Lateral"; p_pais_prestamo := "" |} in
  let es := [{| e_jugador_id := "J1"; e_week_end := Some 738955;
                e_partidos := 1; e_minutos := 90; e_goles_marcados := 0;
                e_goles_encajados := 2; e_amarillas := 0; e_rojas := 0 |}] in
  exists v, tabla_acumulada es [ana; beto] ["Activo"] [] [] true = Shown v
  /\ filter (passes es ["Activo"] [] [] true) [ana; beto] = [ana]
  /\ (es <> [] /\ week_end_consistent es
      /\ Permutation v (map (player_row es) (filter (passes es ["Activo"] [] [] true) [ana; beto]))
      /\ Sorted presented_before v).
Proof.
  intros ana beto es. eexists. split; [reflexivity|].
  split; [reflexivity|].
  apply (tabla_acumulada_filters es [ana; beto] ["Activo"] [] [] true). reflexivity.
Defined.

End FilterFacts.

(* ------------------------------------------------------------------ *)
(** ** Player selector *)

Module SelectFacts.
Import Py Frame FrameFacts2 SelectDefs.
Local Open Scope string_scope.

Lemma fold_dict_last {A} (lab : A -> string) (val : A -> pyval) (rs : list A) (d0 : dict) l :
  In l (map lab rs) ->
  exists pre r post, rs = app pre (r :: post) /\ lab r = l
    /\ Forall (fun r' => lab r' <> l) post
    /\ dict_get (fold_left (fun d r => dict_set d (lab r) (val r)) rs d0) l = val r.
Proof.
  induction rs as [|x rs IH] using rev_ind; simpl; [tauto|].
  intros Hin. rewrite fold_left_app. simpl. rewrite dict_get_set.
  destruct (String.eqb_spec l (lab x)) as [E|E].
  - exists rs, x, []. repeat split; auto.
  - rewrite map_app in Hin. apply in_app_or in Hin as [Hin|[Hin|[]]]; [|congruence].
    destruct (IH Hin) as (pre & r & post & -> & Hl & Hp & Hv).
    exists pre, r, (app post [x]). repeat split; auto.
    + now rewrite <- app_assoc.
    + apply Forall_app. split; [exact Hp|]. constructor; [congruence|constructor].
Qed.

(** When two players share the same selector label, [label_to_id] maps the
    label to the identifier of the LAST row with that label. *)
Theorem selector_picks_last (df : frame) (d : dict) (l : string) :
  label_to_id df = Some d ->
  In l (map (player_label (columns df)) (rows df)) ->
  exists pre r post, rows df = app pre (r :: post)
    /\ player_label (columns df) r = l
    /\ Forall (fun r' => player_label (columns df) r' <> l) post
    /\ dict_get d l = get (columns df) r "jugador_id".
Proof.
  unfold label_to_id. destruct (_ && _); [|discriminate]. intros [= <-] Hin.
  apply fold_dict_last. exact Hin.
Qed.

Lemma selector_picks_last_witness :
  let cols := ["jugador_id"; "nombre"; "club_prestamo"; "puesto"] in
  let df := {| columns := cols;
               rows := [[PStr "A"; PStr "Juan"; PStr "Club"; PStr "Lateral"];
                        [PStr "B"; PStr "Juan"; PStr "Club"; PStr "Lateral"]] |} in
  exists d, label_to_id df = Some d
  /\ In "Juan — Club (Lateral)" (map (player_label cols) (rows df))
  /\ dict_get d "Juan — Club (Lateral)" = PStr "B"
  /\ exists pre r post, rows df = app pre (r :: post)
       /\ player_label cols r = "Juan — Club (Lateral)"
       /\ Forall (fun r' => player_label cols r' <> "Juan — Club (Lateral)") post
       /\ dict_get d "Juan — Club (Lateral)" = get cols r "jugador_id".
Proof.
  intros cols df. eexists. split; [reflexivity|].
  split; [left; reflexivity|]. split; [reflexivity|].
  apply (selector_picks_last df); [reflexivity|left; reflexivity].
Defined.

End SelectFacts.

(* ------------------------------------------------------------------ *)
(** ** Worksheet round trips *)

Module StoreFacts.
Import Py Frame FrameFacts FrameFacts2 StoreDefs.
Local Open Scope string_scope.

Lemma has_col_app c l1 l2 : has_col c (app l1 l2) = has_col c l1 || has_col c l2.
Proof.
  destruct (has_col c (app l1 l2)) eqn:E, (has_col c l1) eqn:E1, (has_col c l2) eqn:E2;
    try reflexivity; rewrite ?has_col_in in *;
    repeat match goal with H : has_col _ _ = false |- _ =>
      apply not_true_iff_false in H; rewrite has_col_in in H end;
    try (apply in_app_or in E; tauto); exfalso; auto using in_or_app.
Qed.

Lemma denotes_add_const df fs c v :
  has_col c (columns df) = false -> denotes df fs ->
  denotes (add_const_col df c v) (map (fun f c' => if String.eqb c' c then v else f c') fs).
Proof.
  intros Hc H. unfold denotes, add_const_col in *. simpl.
  apply denotes_map with (1 := H). intros r f [Hlen Hget].
  split; [rewrite !length_app; simpl; lia|]. intros c'.
  rewrite get_app by exact Hlen.
  destruct (String.eqb_spec c' c) as [->|Hne].
  - unfold has_col in Hc. destruct (index_of c (columns df)); [discriminate|].
    simpl. now rewrite String.eqb_refl.
  - rewrite <- Hget. destruct (index_of c' (columns df)) eqn:E; [reflexivity|].
    simpl. apply String.eqb_neq in Hne. rewrite Hne. symmetry. now apply get_none.
Qed.

Lemma denotes_fill_missing L : forall df fs,
  denotes df fs ->
  denotes (fill_missing df L)
    (map (fun f c => if has_col c (columns df) then f c
                     else if existsb (String.eqb c) L then PStr "" else f c) fs).
Proof.
  unfold fill_missing. induction L as [|c L IH]; intros df fs H; simpl.
  - rewrite <- (map_id fs) in H. eapply denotes_ext_map; [exact H|].
    intros f c _. cbv beta. now destruct (has_col c (columns df)).
  - destruct (has_col c (columns df)) eqn:Hc.
    + eapply denotes_ext_map; [apply IH; exact H|].
      intros f c' _. cbv beta. destruct (has_col c' (columns df)) eqn:E; [reflexivity|].
      simpl. destruct (String.eqb_spec c' c) as [->|]; [congruence|reflexivity].
    + pose proof (IH _ _ (denotes_add_const df fs c (PStr "") Hc H)) as H'.
      rewrite map_map in H'. eapply denotes_ext_map; [exact H'|].
      intros f c' _. simpl. rewrite has_col_app.
      destruct (String.eqb_spec c' c) as [->|Hne].
      * rewrite Hc. simpl. now destruct (has_col c [c]), (existsb (String.eqb c) L).
      * assert (E : has_col c' [c] = false).
        { unfold has_col. simpl. apply String.eqb_neq in Hne. now rewrite Hne. }
        rewrite E, orb_false_r. destruct (has_col c' (columns df)); reflexivity.
Qed.

Lemma record_eta (df : frame) : df = {| columns := columns df; rows := rows df |}.
Proof. destruct df; reflexivity. Qed.

Lemma get_cons c cs x r c' :
  get (c :: cs) (x :: r) c' = if String.eqb c' c then x else get cs r c'.
Proof.
  unfold get. simpl. destruct (String.eqb c' c); [reflexivity|].
  now destruct (index_of c' cs).
Qed.

Lemma map_get_self cols r :
  NoDup cols -> List.length r = List.length cols -> map (get cols r) cols = r.
Proof.
  revert r. induction cols as [|c cs IH]; intros r Hnd Hlen; destruct r as [|x r];
    simpl in *; try discriminate; [reflexivity|].
  inversion Hnd as [|? ? Hnin Hnd']; subst.
  rewrite get_cons, String.eqb_refl. f_equal.
  rewrite <- (IH r Hnd') at 2 by lia. apply map_ext_in. intros c' Hc'.
  rewrite get_cons. destruct (String.eqb_spec c' c) as [->|]; [contradiction|reflexivity].
Qed.

Lemma sheet_cell_PStr l : map sheet_cell (map PStr l) = l.
Proof. induction l; simpl; f_equal; auto. Qed.


(** Reading a worksheet whose grid is a header of distinct labels over rows
    of the header's width, then writing the frame back with the same labels,
    puts exactly that grid back. *)
Theorem ws_load_save cols data :
  cols <> [] -> NoDup cols ->
  Forall (fun r => List.length r = List.length cols) data ->
  _df_to_ws_overwrite (_ws_to_df (cols :: data)) cols = cols :: data.
Proof.
  intros Hcols Hnd Hlen.
  assert (Hf : forall df, columns df = cols -> fill_missing df cols = df).
  { intros df Hc. apply fill_missing_noop. intros c Hin. rewrite Hc. now apply has_col_in. }
  destruct data as [|r rs].
  - unfold _df_to_ws_overwrite. simpl. rewrite Hf by reflexivity.
    unfold empty. simpl. destruct cols; reflexivity.
  - unfold _df_to_ws_overwrite. cbn [_ws_to_df]. rewrite Hf by reflexivity.
    unfold empty, select. cbn [columns rows].
    destruct cols as [|c0 cs] eqn:Ec; [contradiction|]. rewrite <- Ec.
    simpl map at 1. f_equal. rewrite !map_map. f_equal.
    rewrite <- (map_id (r :: rs)) at 2. apply map_ext_in. intros x Hx.
    rewrite map_get_self.
    + apply sheet_cell_PStr.
    + rewrite Ec. exact Hnd.
    + rewrite length_map. rewrite Forall_forall in Hlen. rewrite Ec. now apply Hlen.
Qed.

Lemma ws_load_save_witness :
  NoDup ["a"; "b"]
  /\ _df_to_ws_overwrite (_ws_to_df [["a"; "b"]; ["1"; "2"]; ["3"; ""]]) ["a"; "b"]
     = [["a"; "b"]; ["1"; "2"]; ["3"; ""]].
Proof.
  assert (Hnd : NoDup ["a"; "b"]).
  { constructor; [simpl; intuition discriminate|]. constructor; [simpl; tauto|]. constructor. }
  split; [exact Hnd|].
  apply ws_load_save; [discriminate|exact Hnd|repeat constructor].
Defined.

End StoreFacts.

(* ------------------------------------------------------------------ *)
(** ** Upsert of an existing player; soft delete with a reason *)

Module UpsertFacts.
Import Py Frame FrameFacts FrameFacts2 Spec StoreFacts UpsertDefs.
Local Open Scope string_scope.

Lemma NoDup_REQUIRED_JUGADORES_COLS : NoDup REQUIRED_JUGADORES_COLS.
Proof.
  unfold REQUIRED_JUGADORES_COLS.
  repeat (apply NoDup_cons; [simpl; intros H; intuition discriminate|]).
  apply NoDup_nil.
Qed.

Lemma payload_value_cases p c :
  (forall d, payload_value p c d = d) \/ (exists v, forall d, payload_value p c d = v).
Proof.
  unfold payload_value. induction p as [|[k v] p IH]; simpl; [left; reflexivity|].
  destruct (String.eqb c k).
  - destruct IH as [H|[w H]]; right; [exists v|exists w]; intros d; apply H.
  - exact IH.
Qed.

Lemma payload_value_idem p c d :
  payload_value p c (payload_value p c d) = payload_value p c d.
Proof. destruct (payload_value_cases p c) as [H|[v H]]; rewrite !H; reflexivity. Qed.

(** [upsert_jugador] on an identifier already in a table with the
    required player columns updates in place: every row of that player
    gets the payload's values and the update time [now], every other row
    is kept as it is, and no row is added or removed. *)
Theorem upsert_update (T : frame) (i : string) (p : dict) (now : string) :
  well_formed T -> columns T = REQUIRED_JUGADORES_COLS ->
  (exists r, In r (rows T) /\ belongs (columns T) r i = true) ->
  upsert_jugador T i p now
  = Some {| columns := REQUIRED_JUGADORES_COLS;
            rows := map (fun r => if belongs REQUIRED_JUGADORES_COLS r i
                                  then map (updated_row (get REQUIRED_JUGADORES_COLS r) p now)
                                         REQUIRED_JUGADORES_COLS
                                  else r) (rows T) |}.
Proof.
  intros Hwf Hc Hex.
  set (REQ := REQUIRED_JUGADORES_COLS) in *.
  pose proof (denotes_wf T Hwf) as H2. rewrite Hc in H2.
  set (b0 := fun r => belongs REQ r i).
  assert (Hm1 : id_mask T i = Some (map b0 (rows T))).
  { rewrite (id_mask_denotes T _ i H2) by (rewrite Hc; reflexivity).
    now rewrite map_map. }
  assert (Hex1 : existsb (fun x => x) (map b0 (rows T)) = true).
  { destruct Hex as (r & Hr & Hb). apply existsb_exists. exists true. split; [|reflexivity].
    rewrite Hc in Hb. rewrite <- Hb. apply (in_map b0). exact Hr. }
  pose proof (denotes_fold_loc_set (rows T) b0 p (get REQ) T H2) as H3.
  set (D2 := fold_left (fun d kv => loc_set d (map b0 (rows T)) (fst kv) (snd kv)) p T)
    in H3.
  pose proof (denotes_loc_set D2 _ (map b0 (rows T)) "updated_at" (PStr now) H3
                ltac:(now rewrite !length_map)) as H4.
  rewrite zip_with_map2 in H4.
  set (D3 := loc_set D2 (map b0 (rows T)) "updated_at" (PStr now)) in H4.
  assert (Hf3 : fill_missing D3 REQ = D3).
  { apply fill_missing_noop. intros c Hc'. apply has_col_loc_set, has_col_fold_loc_set.
    rewrite Hc. now apply has_col_in. }
  unfold upsert_jugador. rewrite Hm1, Hex1. fold REQ. fold D2. fold D3. rewrite Hf3.
  f_equal. rewrite (record_eta (select D3 REQ)). f_equal.
  rewrite (rows_select _ _ REQ H4), map_map. apply map_ext_in. intros r Hr.
  cbv beta. change (belongs REQ r i) with (b0 r). destruct (b0 r) eqn:Eb.
  - apply map_ext_in. intros c _. simpl. unfold updated_row.
    destruct (String.eqb c "updated_at"); reflexivity.
  - transitivity (map (get REQ r) REQ); [apply map_ext; reflexivity|].
    apply map_get_self; [exact NoDup_REQUIRED_JUGADORES_COLS|].
    unfold well_formed in Hwf. rewrite Forall_forall in Hwf. rewrite Hwf by exact Hr.
    now rewrite Hc.
Qed.

(** Submitting the same edit twice for an identifier already in a table
    with the required player columns gives the same table as submitting
    it once at the later time, as long as the payload does not rewrite
    [jugador_id]. *)
Theorem upsert_idempotent (T : frame) (i : string) (p : dict) (now1 now2 : string) :
  well_formed T -> columns T = REQUIRED_JUGADORES_COLS ->
  (exists r, In r (rows T) /\ belongs (columns T) r i = true) ->
  ~ In "jugador_id" (map fst p) ->
  exists T1, upsert_jugador T i p now1 = Some T1
             /\ upsert_jugador T1 i p now2 = upsert_jugador T i p now2.
Proof.
  intros Hwf Hc Hex Hp.
  set (REQ := REQUIRED_JUGADORES_COLS) in *.
  eexists; split; [apply upsert_update; assumption|].
  assert (Hb : forall r, belongs REQ r i = true ->
                 belongs REQ (map (updated_row (get REQ r) p now1) REQ) i = true).
  { intros r Hr. unfold belongs in *. rewrite get_map_cols_in by (simpl; auto).
    unfold updated_row. simpl. rewrite payload_value_notin by exact Hp. exact Hr. }
  rewrite upsert_update; [rewrite upsert_update by assumption|..].
  - f_equal. f_equal. cbn [rows]. fold REQ. rewrite map_map. apply map_ext. intros r.
    destruct (belongs REQ r i) eqn:E.
    + rewrite (Hb r E). apply map_ext_in. intros c Hc'. unfold updated_row.
      rewrite get_map_cols_in by exact Hc'. unfold updated_row.
      destruct (String.eqb c "updated_at"); [reflexivity|]. apply payload_value_idem.
    + rewrite E. reflexivity.
  - unfold well_formed. cbn [rows columns]. fold REQ. rewrite Forall_forall. intros r' Hr'.
    apply in_map_iff in Hr' as (r & <- & Hr).
    destruct (belongs REQ r i); [apply length_map|].
    unfold well_formed in Hwf. rewrite Forall_forall in Hwf. rewrite Hwf by exact Hr.
    now rewrite Hc.
  - reflexivity.
  - destruct Hex as (r & Hr & Hbr). rewrite Hc in Hbr.
    exists (map (updated_row (get REQ r) p now1) REQ). split.
    + cbn [rows]. fold REQ. apply in_map_iff. exists r. now rewrite Hbr.
    + cbn [columns]. fold REQ. now apply Hb.
Qed.


Lemma upsert_update_witness :
  let T := {| columns := REQUIRED_JUGADORES_COLS; rows := [req_row "A"; req_row "B"] |} in
  well_formed T /\ In (req_row "A") (rows T) /\ belongs (columns T) (req_row "A") "A" = true
  /\ upsert_jugador T "A" [("estado", PStr "Cedido")] "T1"
     = Some {| columns := REQUIRED_JUGADORES_COLS;
               rows := map (fun r => if belongs REQUIRED_JUGADORES_COLS r "A"
                                     then map (updated_row (get REQUIRED_JUGADORES_COLS r)
                                                 [("estado", PStr "Cedido")] "T1")
                                            REQUIRED_JUGADORES_COLS
                                     else r) (rows T) |}.
Proof.
  intros T.
  assert (Hwf : well_formed T) by (repeat constructor).
  split; [exact Hwf|]. split; [left; reflexivity|]. split; [reflexivity|].
  apply upsert_update; [exact Hwf|reflexivity|].
  exists (req_row "A"). split; [left; reflexivity|reflexivity].
Defined.

Lemma upsert_idempotent_witness :
  let T := {| columns := REQUIRED_JUGADORES_COLS; rows := [req_row "A"; req_row "B"] |} in
  well_formed T /\ ~ In "jugador_id" (map fst [("estado", PStr "Cedido")])
  /\ exists T1, upsert_jugador T "A" [("estado", PStr "Cedido")] "T1" = Some T1
       /\ upsert_jugador T1 "A" [("estado", PStr "Cedido")] "T2"
          = upsert_jugador T "A" [("estado", PStr "Cedido")] "T2".
Proof.
  intros T.
  assert (Hwf : well_formed T) by (repeat constructor).
  assert (Hp : ~ In "jugador_id" (map fst [("estado", PStr "Cedido")]))
    by (simpl; intuition discriminate).
  split; [exact Hwf|]. split; [exact Hp|].
  apply upsert_idempotent; [exact Hwf|reflexivity| |exact Hp].
  exists (req_row "A"). split; [left; reflexivity|reflexivity].
Defined.


End UpsertFacts.

(* ------------------------------------------------------------------ *)
(** ** Display tables *)

Module PrettyFacts.
Import Py Normalize Frame FrameFacts FrameFacts2 StoreFacts PrettyDefs.
Local Open Scope string_scope.



End PrettyFacts.

(* ------------------------------------------------------------------ *)
(** ** Administration page save *)

Module AdminFacts.
Import Py Normalize Frame FrameFacts FrameFacts2 StoreFacts PrettyDefs PrettyFacts.
Local Open Scope string_scope.

(** Saving the administration page's edit of a tracking table with the
    required columns: every row of the edited table is written back, each
    required column taking the edited cell under its display label, except
    that [updated_at] is the save time and [created_at] is the empty string
    in every row, whatever it held: the editor shows these two columns as
    ["Created At"] and ["Updated At"], labels the inverse map does not turn
    back into column names. *)
Theorem admin_save_spec (df_s E : frame) (now_u now_c : string) :
  columns df_s = REQUIRED_SEGUIMIENTO_COLS ->
  columns E = columns (admin_view df_s) ->
  well_formed E ->
  admin_save E now_u now_c
  = {| columns := REQUIRED_SEGUIMIENTO_COLS;
       rows := map (fun r => map (fun c =>
                 if String.eqb c "created_at" then PStr ""
                 else if String.eqb c "updated_at" then PStr now_u
                 else get (columns E) r (display_label c)) REQUIRED_SEGUIMIENTO_COLS)
               (rows E) |}.
Proof.
  intros Hc HE Hwf.
  assert (HA : admin_cols df_s =
    ["week_start"; "week_end"; "jugador_id"; "partidos"; "minutos";
     "goles_marcados"; "goles_encajados"; "amarillas"; "rojas"; "incidencias";
     "registro_id"; "created_at"; "updated_at"]).
  { unfold admin_cols. rewrite Hc. reflexivity. }
  set (L := map display_label
    ["week_start"; "week_end"; "jugador_id"; "partidos"; "minutos";
     "goles_marcados"; "goles_encajados"; "amarillas"; "rojas"; "incidencias";
     "registro_id"; "created_at"; "updated_at"]).
  assert (HL : columns E = L) by (rewrite HE; unfold admin_view, pretty_df; now rewrite HA).
  set (R := map inverse_label L).
  assert (HR : R = ["week_start"; "week_end"; "jugador_id"; "partidos"; "minutos";
     "goles_marcados"; "goles_encajados"; "amarillas"; "rojas"; "incidencias";
     "registro_id"; "Created At"; "Updated At"]) by (vm_compute; reflexivity).
  set (E1 := rename_cols inverse_label E).
  assert (Hwf1 : well_formed E1).
  { unfold well_formed, E1, rename_cols. simpl. rewrite length_map. exact Hwf. }
  assert (Hc1 : columns E1 = R) by (unfold E1, rename_cols; simpl; now rewrite HL).
  pose proof (denotes_wf E1 Hwf1) as H1. rewrite Hc1 in H1.
  assert (Hu : has_col "updated_at" (columns E1) = false) by (rewrite Hc1, HR; reflexivity).
  assert (Hassign : assign_col E1 "updated_at" (PStr now_u) = add_const_col E1 "updated_at" (PStr now_u)).
  { unfold assign_col, has_col in *. destruct (index_of "updated_at" (columns E1)); [discriminate|reflexivity]. }
  pose proof (denotes_add_const E1 _ "updated_at" (PStr now_u) Hu H1) as H2.
  set (E2 := add_const_col E1 "updated_at" (PStr now_u)) in H2.
  assert (Hcr : apply_col (fill_blank now_c) "created_at" E2 = E2).
  { unfold apply_col.
    assert (Hn : index_of "created_at" (columns E2) = None).
    { unfold E2, add_const_col. cbn [columns]. rewrite Hc1, HR. reflexivity. }
    now rewrite Hn. }
  pose proof (denotes_fill_missing REQUIRED_SEGUIMIENTO_COLS E2 _ H2) as H3.
  unfold admin_save. fold E1. rewrite Hassign. fold E2. rewrite Hcr.
  rewrite (record_eta (select _ _)). f_equal.
  rewrite (rows_select _ _ _ H3), !map_map.
  unfold E1, rename_cols. cbn [rows]. apply map_ext. intros r.
  apply map_ext_in. intros c Hc'. cbv beta.
  assert (Hc2 : columns E2 = app R ["updated_at"]) by (unfold E2, add_const_col; now rewrite Hc1).
  rewrite Hc2, HL. subst R. rewrite HR. clear -Hc'.
  simpl in Hc'. repeat destruct Hc' as [<-|Hc']; try contradiction; reflexivity.
Qed.
Lemma admin_save_spec_witness :
  let df_s := {| columns := REQUIRED_SEGUIMIENTO_COLS; rows := [] |} in
  let E := {| columns := columns (admin_view df_s);
              rows := [[PStr "2024-03-04"; PStr "2024-03-10"; PStr "J1"; PInt 1; PInt 90;
                        PInt 0; PInt 2; PInt 0; PInt 0; PStr ""; PStr "R1";
                        PStr "2024-03-11 10:00:00"; PStr "2024-03-11 10:00:00"]] |} in
  well_formed E
  /\ admin_save E "2024-04-01 09:00:00" "2024-04-01 09:00:00"
     = {| columns := REQUIRED_SEGUIMIENTO_COLS;
          rows := [[PStr "R1"; PStr "J1"; PStr "2024-03-04"; PStr "2024-03-10"; PInt 1; PInt 90;
                    PInt 0; PInt 2; PInt 0; PInt 0; PStr ""; PStr "";
                    PStr "2024-04-01 09:00:00"]] |}.
Proof.
  intros df_s E.
  assert (Hwf : well_formed E) by (repeat constructor).
  split; [exact Hwf|].
  exact (admin_save_spec df_s E "2024-04-01 09:00:00" "2024-04-01 09:00:00" eq_refl eq_refl Hwf).
Defined.

End AdminFacts.

